(** * The customer-service turn router of [app.py]

    A shallow embedding of
    [part2-openai/community-contributions/OZ/lab2-customer_service_agent/app.py]:
    the pydantic result records, [process_workflow], and the two Gradio
    event handlers that drive it ([msg.submit] and [clear.click]).

    Conventions.
    - A Python [str] is a [string] holding its UTF-8 bytes.
    - A Python [float] is a primitive binary64 [float]; a Python number
      that may be an [int] or a [float] is a [Num].
    - The dict [state] is a [gmap string bool]; the list [history] is a
      [list Turn].
    - [process_workflow] mutates [history] and [state] in place and may
      raise; it is written in a state-and-exception monad [M] over the
      objects it touches, in which a raised exception keeps the mutations
      made before it. *)

From Stdlib Require Import ZArith NArith List String Ascii Bool Lia.
From Stdlib Require Import Floats.PrimFloat Floats.SpecFloat Floats.FloatOps.
From Stdlib Require Import Numbers.DecimalString.
From stdpp Require Import base option list gmap strings.

Import ListNotations.
Local Open Scope string_scope.
Local Open Scope list_scope.
Set Warnings "-inexact-float".

(** ** Python strings *)

Module Str.

(** [c.lower()] on the ASCII range: [A-Z] become [a-z].  [str.lower]
    also changes cased letters outside ASCII; each of those is at least
    two bytes of UTF-8 and none lowers to a letter of ["yes"], ["y"] or
    ["approve"], so the membership test of [process_workflow] is decided
    by the ASCII part modelled here. *)
Definition lower_char (c : ascii) : ascii :=
  let n := N_of_ascii c in
  if ((65 <=? n) && (n <=? 90))%N then ascii_of_N (n + 32) else c.

Fixpoint lower (s : string) : string :=
  match s with
  | EmptyString => EmptyString
  | String c s' => String (lower_char c) (lower s')
  end.

(** [x in [w1, w2, ...]] for strings *)
Definition in_list (x : string) (ws : list string) : bool :=
  existsb (String.eqb x) ws.

(** The string whose bytes are [l]. *)
Definition of_bytes (l : list N) : string :=
  fold_right (fun n s => String (ascii_of_N n) s) EmptyString l.

(** The characters for which [str.isspace] holds, each as its UTF-8
    encoding: U+0009-U+000D, U+001C-U+0020, U+0085, U+00A0, U+1680,
    U+2000-U+200A, U+2028, U+2029, U+202F, U+205F and U+3000. *)
Definition whitespace : list string :=
  map of_bytes
    [[9]; [10]; [11]; [12]; [13]; [28]; [29]; [30]; [31]; [32];
     [194; 133]; [194; 160]; [225; 154; 128];
     [226; 128; 128]; [226; 128; 129]; [226; 128; 130]; [226; 128; 131];
     [226; 128; 132]; [226; 128; 133]; [226; 128; 134]; [226; 128; 135];
     [226; 128; 136]; [226; 128; 137]; [226; 128; 138];
     [226; 128; 168]; [226; 128; 169]; [226; 128; 175];
     [226; 129; 159]; [227; 128; 128]]%N.

(** [ch.isspace()] for a one-character string [ch]. *)
Definition isspace (ch : string) : bool := in_list ch whitespace.

(** What follows [tok] in [s], when [s] starts with [tok]. *)
Fixpoint prefix_rest (tok s : string) : option string :=
  match tok, s with
  | EmptyString, _ => Some s
  | String a tok', String b s' =>
      if Ascii.eqb a b then prefix_rest tok' s' else None
  | String _ _, EmptyString => None
  end.

(** What follows the first of [toks] that [s] starts with. *)
Fixpoint first_rest (toks : list string) (s : string) : option string :=
  match toks with
  | [] => None
  | tok :: toks' =>
      match prefix_rest tok s with
      | Some r => Some r
      | None => first_rest toks' s
      end
  end.

(** [s] without the [toks] it starts with, removing at most [fuel] of
    them; a fuel of [length s] is never used up ([strip_front_done]). *)
Fixpoint strip_front (toks : list string) (fuel : nat) (s : string) : string :=
  match fuel with
  | O => s
  | S fuel' =>
      match first_rest toks s with
      | Some r => strip_front toks fuel' r
      | None => s
      end
  end.

Definition rev_string (s : string) : string :=
  string_of_list_ascii (rev (list_ascii_of_string s)).

(** [s.lstrip()].  In UTF-8 no encoding of a character is the start of
    another's, so [s] starts with the bytes of a whitespace character
    exactly when its first character is that one. *)
Definition lstrip (s : string) : string :=
  strip_front whitespace (String.length s) s.

(** [s.rstrip()]: the same from the end, on the reversed bytes.  A valid
    UTF-8 string that ends with the bytes of a character ends with that
    character. *)
Definition rstrip (s : string) : string :=
  rev_string
    (strip_front (map rev_string whitespace) (String.length s) (rev_string s)).

(** [s.strip()] *)
Definition strip (s : string) : string := rstrip (lstrip s).

(** A printable ASCII character other than the space. *)
Definition plain_char (c : ascii) : bool :=
  let n := N_of_ascii c in ((33 <=? n) && (n <=? 126))%N.

(** Every character of [s] is a printable ASCII character other than the
    space. *)
Definition plain (s : string) : bool :=
  forallb plain_char (list_ascii_of_string s).

(** The first byte of [tok] is not a plain character. *)
Definition starts_unplain (tok : string) : bool :=
  match tok with
  | EmptyString => false
  | String a _ => negb (plain_char a)
  end.

End Str.

(** ** Python numbers and the [.2f] format *)

Inductive Num : Type :=
| PyInt (z : Z)
| PyFloat (x : float).

Module Fmt.

(** The decimal digit [d], for [d < 10]. *)
Definition digit (d : N) : ascii := ascii_of_N (48 + d).

(** [str(n)] for a natural number. *)
Definition decimal (n : N) : string := NilZero.string_of_uint (N.to_uint n).

(** [m * 2^e * 100] rounded to the nearest integer, ties to even: the
    number of hundredths that the correctly rounded conversion of
    [format(x, ".2f")] prints for [|x| = m * 2^e]. *)
Definition hundredths (m : positive) (e : Z) : N :=
  let n := (Npos m * 100)%N in
  match e with
  | Z0 => n
  | Zpos p => N.shiftl n (Npos p)
  | Zneg p =>
      let d := N.shiftl 1 (Npos p) in
      let q := (n / d)%N in
      let r := (n mod d)%N in
      match (2 * r ?= d)%N with
      | Lt => q
      | Gt => (q + 1)%N
      | Eq => if N.even q then q else (q + 1)%N
      end
  end.

(** [h] hundredths printed with two decimals. *)
Definition fixed2 (h : N) : string :=
  decimal (h / 100) ++ "." ++
  String (digit ((h / 10) mod 10)) (String (digit (h mod 10)) EmptyString).

Definition sign (s : bool) : string := if s then "-" else "".

(** [f"{x:.2f}"] *)
Definition format_2f (x : float) : string :=
  match Prim2SF x with
  | S754_nan => "nan"
  | S754_infinity s => sign s ++ "inf"
  | S754_zero s => sign s ++ fixed2 0
  | S754_finite s m e => sign s ++ fixed2 (hundredths m e)
  end.

(** The amount is a number: neither an infinity nor a NaN. *)
Definition finite (x : float) : bool :=
  match Prim2SF x with
  | S754_zero _ | S754_finite _ _ _ => true
  | S754_infinity _ | S754_nan => false
  end.

Definition is_digit (c : ascii) : bool :=
  let n := N_of_ascii c in ((48 <=? n) && (n <=? 57))%N.

Fixpoint all_digits (s : string) : bool :=
  match s with
  | EmptyString => true
  | String c s' => is_digit c && all_digits s'
  end.

(** One or more digits, a point, two digits, and nothing else. *)
Fixpoint fixed2_body (s : string) : bool :=
  match s with
  | EmptyString => false
  | String c s' =>
      is_digit c &&
      match s' with
      | String "." (String d1 (String d2 EmptyString)) =>
          is_digit d1 && is_digit d2
      | _ => fixed2_body s'
      end
  end.

(** A text that is a number with exactly two decimal places: an optional
    minus sign, then digits, a point and two digits. *)
Definition two_decimal_places (s : string) : bool :=
  match s with
  | String "-" s' => fixed2_body s'
  | _ => fixed2_body s
  end.

End Fmt.

(** ** Structured results (the pydantic models) *)

Module ClassificationResponse.
Record t : Type := { reason : string; category : string; confidence : float }.
End ClassificationResponse.

Module BookResponse.
Record t : Type := { reason : string; response : string }.
End BookResponse.

Module ClothingResponse.
Record t : Type := { reason : string; response : string }.
End ClothingResponse.

Module RetentionResponse.
Record t : Type :=
  { offer : string; discount_percentage : float; response : string }.
End RetentionResponse.

Module OrderResponse.
Record t : Type :=
  { human_approval : bool;
    order_item_name : string;
    item_id : Z;
    order_id : Z;
    order_amount : float;
    response : string }.
End OrderResponse.

(** ** Agents and the runner *)

Inductive Agent : Type :=
| classification_agent
| book_agent
| clothing_agent
| retention_agent
| order_agent.

(** [results.final_output]: an instance of one of the five models. *)
Inductive FinalOutput : Type :=
| Classification (c : ClassificationResponse.t)
| Book (b : BookResponse.t)
| Clothing (c : ClothingResponse.t)
| Retention (r : RetentionResponse.t)
| Order (o : OrderResponse.t).

Inductive Exn : Type :=
| AttributeError (attr : string)
| AgentsException (detail : string).

Inductive Result (A : Type) : Type :=
| Ok (a : A)
| Raise (e : Exn).
Arguments Ok {A} a.
Arguments Raise {A} e.

(** [{"role": ..., "content": ...}] *)
Record Turn : Type := { role : string; content : string }.

(** What one [await Runner.run(agent, history)] does: it returns a final
    output or raises.  The language model behind it is outside the
    program, so every property below is stated for an arbitrary [Runner]. *)
Definition Runner : Type := Agent -> list Turn -> Result FinalOutput.

(** One entry of the log of runner calls made during a turn; the log is
    ghost state used to state which collaborators were invoked, on what,
    and what they answered. *)
Record Call : Type :=
  { agent : Agent; input : list Turn; output : Result FinalOutput }.

(** The output type each agent is declared with ([output_type=...]). *)
Definition has_output_type (a : Agent) (o : FinalOutput) : bool :=
  match a, o with
  | classification_agent, Classification _
  | book_agent, Book _
  | clothing_agent, Clothing _
  | retention_agent, Retention _
  | order_agent, Order _ => true
  | _, _ => false
  end.

(** ** The objects a turn works on, and the monad of [process_workflow] *)

Record Heap : Type :=
  { history : list Turn;
    state : gmap string bool;
    calls : list Call }.

Definition M (A : Type) : Type := Heap -> Heap * Result A.

#[global] Instance M_ret : MRet M := fun A a h => (h, Ok a).

#[global] Instance M_bind : MBind M := fun A B f m h =>
  match m h with
  | (h', Ok a) => f a h'
  | (h', Raise e) => (h', Raise e)
  end.

Definition raise {A : Type} (e : Exn) : M A := fun h => (h, Raise e).

(** [history.append(t)] *)
Definition history_append (t : Turn) : M unit := fun h =>
  ({| history := history h ++ [t]; state := state h; calls := calls h |}, Ok tt).

(** [state.get(k)] *)
Definition state_get (k : string) : M (option bool) := fun h =>
  (h, Ok (state h !! k)).

(** [state[k] = v] *)
Definition state_set (k : string) (v : bool) : M unit := fun h =>
  ({| history := history h; state := <[k := v]> (state h); calls := calls h |},
   Ok tt).

(** Truth value of what [state.get] returns: [None] and [False] are falsy. *)
Definition truthy (v : option bool) : bool := default false v.

(** Attribute access on a final output; a missing attribute raises. *)
Definition getattr_category (o : FinalOutput) : M string :=
  match o with
  | Classification c => mret (ClassificationResponse.category c)
  | _ => raise (AttributeError "category")
  end.

Definition getattr_confidence (o : FinalOutput) : M float :=
  match o with
  | Classification c => mret (ClassificationResponse.confidence c)
  | _ => raise (AttributeError "confidence")
  end.

Definition getattr_response (o : FinalOutput) : M string :=
  match o with
  | Book b => mret (BookResponse.response b)
  | Clothing c => mret (ClothingResponse.response c)
  | Retention r => mret (RetentionResponse.response r)
  | Order o => mret (OrderResponse.response o)
  | Classification _ => raise (AttributeError "response")
  end.

Definition getattr_human_approval (o : FinalOutput) : M bool :=
  match o with
  | Order o => mret (OrderResponse.human_approval o)
  | _ => raise (AttributeError "human_approval")
  end.

Definition getattr_order_item_name (o : FinalOutput) : M string :=
  match o with
  | Order o => mret (OrderResponse.order_item_name o)
  | _ => raise (AttributeError "order_item_name")
  end.

Definition getattr_order_amount (o : FinalOutput) : M float :=
  match o with
  | Order o => mret (OrderResponse.order_amount o)
  | _ => raise (AttributeError "order_amount")
  end.

(** ** Constants of [process_workflow] *)

(** The bytes that follow the approval sentence in the source file: the
    UTF-8 encoding of the code points U+201A, U+00FA and U+00D6. *)
Definition approved_mark : string :=
  String "226" (String "128" (String "154"
    (String "195" (String "186" (String "195" (String "150" EmptyString)))))).

(** The bytes that follow the cancellation sentence in the source file:
    the UTF-8 encoding of the code points U+201A, U+00F9 and U+00E5. *)
Definition cancelled_mark : string :=
  String "226" (String "128" (String "154"
    (String "195" (String "185" (String "195" (String "165" EmptyString)))))).

Definition approved_text : string :=
  "Order approved and sent to shipping! " ++ approved_mark.

Definition cancelled_text : string :=
  "Order cancelled at your request. " ++ cancelled_mark.

Definition affirmative : list string := ["yes"; "y"; "approve"].

Definition apology : string :=
  "I'm sorry, I couldn't categorize your request correctly.".

Definition agent_map : gmap string Agent :=
  <["books" := book_agent]>
    (<["clothing" := clothing_agent]>
       (<["retention" := retention_agent]>
          (<["order" := order_agent]> ∅))).

Definition order_summary (name : string) (amount : float) : string :=
  "Order summary: " ++ name ++ " ($" ++ Fmt.format_2f amount ++
  "). Approve this order? (yes/no)".

(** ** [process_workflow] *)

Section Workflow.

Variable run : Runner.

(** [(await Runner.run(a, history)).final_output] *)
Definition Runner_run (a : Agent) : M FinalOutput := fun h =>
  let r := run a (history h) in
  ({| history := history h;
      state := state h;
      calls := calls h ++ [{| agent := a; input := history h; output := r |}] |},
   r).

Definition process_workflow (message : string) : M (string * Num) :=
  history_append {| role := "user"; content := message |};;
  (* 1. Handle Turn-Based Approval *)
  pending ← state_get "pending_approval";
  if truthy pending then
    state_set "pending_approval" false;;
    let res :=
      if Str.in_list (Str.lower message) affirmative
      then approved_text else cancelled_text in
    history_append {| role := "assistant"; content := res |};;
    mret ("Order", PyFloat 1)
  else
    (* 2. Run Classification *)
    class_out ← Runner_run classification_agent;
    (* 3. Route to Sub-Agent *)
    category ← getattr_category class_out;
    bot_msg ←
      match agent_map !! category with
      | None => mret apology
      | Some selected_agent =>
          agent_out ← Runner_run selected_agent;
          bot_msg ← getattr_response agent_out;
          (* 4. Interactive Approval Logic *)
          approval ←
            (if String.eqb category "order"
             then getattr_human_approval agent_out
             else mret false);
          if approval : bool then
            state_set "pending_approval" true;;
            name ← getattr_order_item_name agent_out;
            amount ← getattr_order_amount agent_out;
            mret (order_summary name amount)
          else mret bot_msg
      end;
    history_append {| role := "assistant"; content := bot_msg |};;
    category ← getattr_category class_out;
    confidence ← getattr_confidence class_out;
    mret (category, PyFloat confidence).

End Workflow.

(** ** The Gradio session and its two event handlers

    [history_state] and [workflow_state] are the values of the two
    [gr.State] components; a handler receives the session's own objects,
    so what [process_workflow] appends to [history] is appended to
    [history_state], whether the call returns or raises.  A handler's
    return values are stored in its [outputs] components; when it raises,
    no output component is updated.  (The second [msg.submit] handler only
    empties the text box, which is not part of this model.) *)

Record Session : Type :=
  { history_state : list Turn;
    workflow_state : gmap string bool;
    chatbot : list Turn;
    category_label : option string;
    confidence_label : option Num }.

(** [gr.State([])], [gr.State({})], an empty chat and empty labels. *)
Definition initial_session : Session :=
  {| history_state := [];
     workflow_state := ∅;
     chatbot := [];
     category_label := None;
     confidence_label := None |}.

(** The call [process_workflow(msg, history_state, workflow_state)] of one
    turn, with an empty call log. *)
Definition turn (run : Runner) (message : string) (s : Session)
  : Heap * Result (string * Num) :=
  process_workflow run message
    {| history := history_state s; state := workflow_state s; calls := [] |}.

(** [msg.submit(process_workflow, [msg, history_state, workflow_state],
    [chatbot, workflow_state, category_label, confidence_label])] *)
Definition submit (run : Runner) (message : string) (s : Session) : Session :=
  match turn run message s with
  | (h, Ok (cat, conf)) =>
      {| history_state := history h;
         workflow_state := state h;
         chatbot := history h;
         category_label := Some cat;
         confidence_label := Some conf |}
  | (h, Raise _) =>
      {| history_state := history h;
         workflow_state := state h;
         chatbot := chatbot s;
         category_label := category_label s;
         confidence_label := confidence_label s |}
  end.

(** [clear.click(lambda: ([], {}, "", 0), None,
    [chatbot, workflow_state, category_label, confidence_label])] *)
Definition clear (s : Session) : Session :=
  {| history_state := history_state s;
     workflow_state := ∅;
     chatbot := [];
     category_label := Some "";
     confidence_label := Some (PyInt 0) |}.

(** [state.get("pending_approval")] is truthy: the router is awaiting an
    approval. *)
Definition pending_approval (st : gmap string bool) : bool :=
  truthy (st !! "pending_approval").

(** ** Sequences of turns *)

Record Submission : Type := { sub_run : Runner; sub_message : string }.

Definition submit_all (subs : list Submission) (s : Session) : Session :=
  fold_left (fun s sub => submit (sub_run sub) (sub_message sub) s) subs s.

(** The turn returned (it was not aborted by an exception). *)
Definition completed (sub : Submission) (s : Session) : bool :=
  match turn (sub_run sub) (sub_message sub) s with
  | (_, Ok _) => true
  | (_, Raise _) => false
  end.

Definition is_order_classification (c : Call) : bool :=
  match agent c, output c with
  | classification_agent, Ok (Classification r) =>
      String.eqb (ClassificationResponse.category r) "order"
  | _, _ => false
  end.

Definition is_approval_order (c : Call) : bool :=
  match agent c, output c with
  | order_agent, Ok (Order o) => OrderResponse.human_approval o
  | _, _ => false
  end.

(** The turn obtained a classification of category ["order"] and an order
    result with [human_approval=True]. *)
Definition produced_approval_order (sub : Submission) (s : Session) : bool :=
  let log := calls (turn (sub_run sub) (sub_message sub) s).1 in
  existsb is_order_classification log && existsb is_approval_order log.

(** ** Names for what a turn leaves behind *)

Definition user_turn (message : string) : Turn :=
  {| role := "user"; content := message |}.

Definition assistant_turn (text : string) : Turn :=
  {| role := "assistant"; content := text |}.

Definition reply_to_approval (message : string) : string :=
  if Str.in_list (Str.lower message) affirmative
  then approved_text else cancelled_text.

Definition logged (a : Agent) (l : list Turn) (r : Result FinalOutput) : Call :=
  {| agent := a; input := l; output := r |}.

(** The [response] attribute of a final output, when it has one. *)
Definition response_of (o : FinalOutput) : option string :=
  match o with
  | Classification _ => None
  | Book b => Some (BookResponse.response b)
  | Clothing c => Some (ClothingResponse.response c)
  | Retention r => Some (RetentionResponse.response r)
  | Order o => Some (OrderResponse.response o)
  end.

Definition is_classification (o : FinalOutput) : bool :=
  match o with Classification _ => true | _ => false end.

Definition is_order (o : FinalOutput) : bool :=
  match o with Order _ => true | _ => false end.

(** The paths of a turn that starts with no approval pending; [hist] is
    the history with the user's message appended. *)
Inductive idle_spec (run : Runner) (h : Heap) (hist : list Turn)
  : Heap * Result (string * Num) -> Prop :=
| IClassifierRaises e :
    run classification_agent hist = Raise e ->
    idle_spec run h hist
      ({| history := hist;
          state := state h;
          calls := calls h ++ [logged classification_agent hist (Raise e)] |},
       Raise e)
| IClassifierIllTyped o :
    run classification_agent hist = Ok o ->
    is_classification o = false ->
    idle_spec run h hist
      ({| history := hist;
          state := state h;
          calls := calls h ++ [logged classification_agent hist (Ok o)] |},
       Raise (AttributeError "category"))
| IUnmapped c :
    run classification_agent hist = Ok (Classification c) ->
    agent_map !! ClassificationResponse.category c = None ->
    idle_spec run h hist
      ({| history := hist ++ [assistant_turn apology];
          state := state h;
          calls := calls h ++
                   [logged classification_agent hist (Ok (Classification c))] |},
       Ok (ClassificationResponse.category c,
           PyFloat (ClassificationResponse.confidence c)))
| IResponderRaises c a e :
    run classification_agent hist = Ok (Classification c) ->
    agent_map !! ClassificationResponse.category c = Some a ->
    run a hist = Raise e ->
    idle_spec run h hist
      ({| history := hist;
          state := state h;
          calls := calls h ++
                   [logged classification_agent hist (Ok (Classification c));
                    logged a hist (Raise e)] |},
       Raise e)
| INoResponse c a o :
    run classification_agent hist = Ok (Classification c) ->
    agent_map !! ClassificationResponse.category c = Some a ->
    run a hist = Ok o ->
    response_of o = None ->
    idle_spec run h hist
      ({| history := hist;
          state := state h;
          calls := calls h ++
                   [logged classification_agent hist (Ok (Classification c));
                    logged a hist (Ok o)] |},
       Raise (AttributeError "response"))
| INoApprovalFlag c o r :
    run classification_agent hist = Ok (Classification c) ->
    ClassificationResponse.category c = "order" ->
    run order_agent hist = Ok o ->
    response_of o = Some r ->
    is_order o = false ->
    idle_spec run h hist
      ({| history := hist;
          state := state h;
          calls := calls h ++
                   [logged classification_agent hist (Ok (Classification c));
                    logged order_agent hist (Ok o)] |},
       Raise (AttributeError "human_approval"))
| IResponse c a o r :
    run classification_agent hist = Ok (Classification c) ->
    agent_map !! ClassificationResponse.category c = Some a ->
    run a hist = Ok o ->
    response_of o = Some r ->
    (ClassificationResponse.category c = "order" ->
     exists od, o = Order od /\ OrderResponse.human_approval od = false) ->
    idle_spec run h hist
      ({| history := hist ++ [assistant_turn r];
          state := state h;
          calls := calls h ++
                   [logged classification_agent hist (Ok (Classification c));
                    logged a hist (Ok o)] |},
       Ok (ClassificationResponse.category c,
           PyFloat (ClassificationResponse.confidence c)))
| IOrderApproval c od :
    run classification_agent hist = Ok (Classification c) ->
    ClassificationResponse.category c = "order" ->
    run order_agent hist = Ok (Order od) ->
    OrderResponse.human_approval od = true ->
    idle_spec run h hist
      ({| history :=
            hist ++ [assistant_turn
                       (order_summary (OrderResponse.order_item_name od)
                                      (OrderResponse.order_amount od))];
          state := <["pending_approval" := true]> (state h);
          calls := calls h ++
                   [logged classification_agent hist (Ok (Classification c));
                    logged order_agent hist (Ok (Order od))] |},
       Ok (ClassificationResponse.category c,
           PyFloat (ClassificationResponse.confidence c))).

(** Every path through [process_workflow], as a relation between the heap
    before the call and the heap and result after it. *)
Inductive turn_spec (run : Runner) (message : string) (h : Heap)
  : Heap * Result (string * Num) -> Prop :=
| TApproval :
    pending_approval (state h) = true ->
    turn_spec run message h
      ({| history := history h ++ [user_turn message;
                                   assistant_turn (reply_to_approval message)];
          state := <["pending_approval" := false]> (state h);
          calls := calls h |},
       Ok ("Order", PyFloat 1))
| TIdle outcome :
    pending_approval (state h) = false ->
    idle_spec run h (history h ++ [user_turn message]) outcome ->
    turn_spec run message h outcome.

(** ** The end-to-end scenarios *)

Module Scenario.

Definition books_classification : FinalOutput :=
  Classification
    {| ClassificationResponse.reason := "asks for a book";
       ClassificationResponse.category := "books";
       ClassificationResponse.confidence := 0x1.d70a3d70a3d71p-1 |}.

Definition order_classification : FinalOutput :=
  Classification
    {| ClassificationResponse.reason := "wants to order";
       ClassificationResponse.category := "order";
       ClassificationResponse.confidence := 0x1.ccccccccccccdp-1 |}.

Definition atomic_habits_order : FinalOutput :=
  Order
    {| OrderResponse.human_approval := true;
       OrderResponse.order_item_name := "Atomic Habits";
       OrderResponse.item_id := 2;
       OrderResponse.order_id := 1001;
       OrderResponse.order_amount := 0x1.3fd70a3d70a3dp+4;
       OrderResponse.response := "Please confirm your order." |}.

Definition atomic_habits_book : FinalOutput :=
  Book {| BookResponse.reason := "popular";
          BookResponse.response := "Try Atomic Habits!" |}.

(** A runner that answers with fixed results: [cls] from the classifier,
    [book] from the book agent, [order] from the order agent. *)
Definition stub_with (cls book order : FinalOutput) : Runner := fun a _ =>
  match a with
  | classification_agent => Ok cls
  | book_agent => Ok book
  | order_agent => Ok order
  | _ => Raise (AgentsException "not stubbed")
  end.

(** The stubs of scenarios A and B. *)
Definition stub (cls : FinalOutput) : Runner :=
  stub_with cls atomic_habits_book atomic_habits_order.

(** An order whose amount overflowed to infinity (as the JSON number
    1e999 does when read as a float). *)
Definition overflowing_order : FinalOutput :=
  Order
    {| OrderResponse.human_approval := true;
       OrderResponse.order_item_name := "Atomic Habits";
       OrderResponse.item_id := 2;
       OrderResponse.order_id := 1001;
       OrderResponse.order_amount := infinity;
       OrderResponse.response := "Please confirm your order." |}.

(** A classification outside the four categories, with a confidence
    above 1. *)
Definition refunds_classification : FinalOutput :=
  Classification
    {| ClassificationResponse.reason := "asks for money back";
       ClassificationResponse.category := "refunds";
       ClassificationResponse.confidence := 7.5 |}.

(** A classification in a known category with a confidence above 1. *)
Definition overconfident_classification : FinalOutput :=
  Classification
    {| ClassificationResponse.reason := "asks for a book";
       ClassificationResponse.category := "books";
       ClassificationResponse.confidence := 7.5 |}.

(** A book result whose response is the empty string. *)
Definition silent_book : FinalOutput :=
  Book {| BookResponse.reason := "nothing to say";
          BookResponse.response := "" |}.

(** A runner whose classifier answers [cls] and whose every other agent
    fails. *)
Definition classifier_only (cls : FinalOutput) : Runner := fun a _ =>
  match a with
  | classification_agent => Ok cls
  | _ => Raise (AgentsException "unavailable")
  end.

(** The message "yes" followed by a no-break space (U+00A0). *)
Definition yes_then_no_break_space : string :=
  "yes" ++ Str.of_bytes [194; 160]%N.

(** A runner whose every call fails. *)
Definition down : Runner := fun _ _ => Raise (AgentsException "unavailable").

(** Scenario B after its first turn: the order summary has been shown
    and the approval is pending. *)
Definition awaiting : Session :=
  submit (stub order_classification) "I want to order book #2"
    initial_session.

End Scenario.


(** ** Events of a session *)

(** What the user can do: submit a message (the runner behaviour met by
    that turn is part of the event) or click the clear button. *)
Inductive Event : Type :=
| Submit (sub : Submission)
| Clear.

Definition step (s : Session) (ev : Event) : Session :=
  match ev with
  | Submit sub => submit (sub_run sub) (sub_message sub) s
  | Clear => clear s
  end.

Definition run_events (evs : list Event) (s : Session) : Session :=
  fold_left step evs s.

(** How many of the turns [subs], submitted one after the other from [s],
    return. *)
Fixpoint count_completed (subs : list Submission) (s : Session) : nat :=
  match subs with
  | [] => 0
  | sub :: rest =>
      (if completed sub s then 1 else 0) +
      count_completed rest (submit (sub_run sub) (sub_message sub) s)
  end.

(** ** The shape of a dialogue *)

Definition is_user (t : Turn) : bool := String.eqb (role t) "user".

Definition is_assistant (t : Turn) : bool := String.eqb (role t) "assistant".

(** Every turn of [l] is a user turn or an assistant turn, and every
    assistant turn directly follows a user turn; [after_user] tells whether
    a user turn directly precedes [l]. *)
Fixpoint dialogue_ok (after_user : bool) (l : list Turn) : bool :=
  match l with
  | [] => true
  | t :: l' =>
      if is_user t then dialogue_ok true l'
      else is_assistant t && after_user && dialogue_ok false l'
  end.

(** Whether a user turn is the last thing before the end of [l]. *)
Fixpoint ends_with_user (after_user : bool) (l : list Turn) : bool :=
  match l with
  | [] => after_user
  | t :: l' => ends_with_user (is_user t) l'
  end.

(** ** The fields [process_workflow] reads *)

(** A final output with the fields that [process_workflow] never reads
    blanked: the reasons, the retention offer and discount, and the item
    and order identifiers. *)
Definition read_fields (o : FinalOutput) : FinalOutput :=
  match o with
  | Classification c =>
      Classification
        {| ClassificationResponse.reason := "";
           ClassificationResponse.category := ClassificationResponse.category c;
           ClassificationResponse.confidence :=
             ClassificationResponse.confidence c |}
  | Book b =>
      Book {| BookResponse.reason := "";
              BookResponse.response := BookResponse.response b |}
  | Clothing c =>
      Clothing {| ClothingResponse.reason := "";
                  ClothingResponse.response := ClothingResponse.response c |}
  | Retention r =>
      Retention {| RetentionResponse.offer := "";
                   RetentionResponse.discount_percentage := 0;
                   RetentionResponse.response := RetentionResponse.response r |}
  | Order o =>
      Order {| OrderResponse.human_approval := OrderResponse.human_approval o;
               OrderResponse.order_item_name := OrderResponse.order_item_name o;
               OrderResponse.item_id := 0;
               OrderResponse.order_id := 0;
               OrderResponse.order_amount := OrderResponse.order_amount o;
               OrderResponse.response := OrderResponse.response o |}
  end.

Definition read_result (r : Result FinalOutput) : Result FinalOutput :=
  match r with
  | Ok o => Ok (read_fields o)
  | Raise e => Raise e
  end.

(** A session whose state dict carries a key of its own besides the
    router's. *)
Definition session_with_language : Session :=
  {| history_state := [];
     workflow_state := <["language" := true]> ∅;
     chatbot := [];
     category_label := None;
     confidence_label := None |}.


(** * Properties *)

(** ** The monad, step by step *)

Lemma approval_branch (run : Runner) (message : string) (h : Heap) :
  pending_approval (state h) = true ->
  process_workflow run message h =
    ({| history := history h ++ [user_turn message;
                                 assistant_turn (reply_to_approval message)];
        state := <["pending_approval" := false]> (state h);
        calls := calls h |},
     Ok ("Order", PyFloat 1)).
Proof.
  intros Hp. unfold process_workflow, mbind, M_bind, history_append, state_get.
  cbn. unfold pending_approval in Hp. rewrite Hp. cbn.
  rewrite <- app_assoc. reflexivity.
Qed.

Lemma agent_map_order : agent_map !! "order" = Some order_agent.
Proof. reflexivity. Qed.

Ltac run_monad :=
  unfold process_workflow, Runner_run, mbind, M_bind, mret, M_ret, raise,
    history_append, state_get, state_set, getattr_category,
    getattr_confidence, getattr_response, getattr_human_approval,
    getattr_order_item_name, getattr_order_amount; cbn.

Section IdleBranch.

Variable run : Runner.
Variable message : string.
Variable h : Heap.

Hypothesis Hidle : pending_approval (state h) = false.

Local Abbreviation hist := (history h ++ [user_turn message]).

Lemma idle_classifier_raises (e : Exn) :
  run classification_agent hist = Raise e ->
  process_workflow run message h =
    ({| history := hist;
        state := state h;
        calls := calls h ++ [logged classification_agent hist (Raise e)] |},
     Raise e).
Proof.
  intros Hc. run_monad. unfold pending_approval in Hidle. rewrite Hidle. cbn.
  fold (user_turn message). rewrite Hc. reflexivity.
Qed.

Lemma idle_unmapped (c : ClassificationResponse.t) :
  run classification_agent hist = Ok (Classification c) ->
  agent_map !! ClassificationResponse.category c = None ->
  process_workflow run message h =
    ({| history := hist ++ [assistant_turn apology];
        state := state h;
        calls := calls h ++
                 [logged classification_agent hist (Ok (Classification c))] |},
     Ok (ClassificationResponse.category c,
         PyFloat (ClassificationResponse.confidence c))).
Proof.
  intros Hc Hmap. run_monad. unfold pending_approval in Hidle.
  rewrite Hidle. cbn. fold (user_turn message). rewrite Hc.
  run_monad. rewrite Hmap. reflexivity.
Qed.

Lemma idle_order_approval (c : ClassificationResponse.t)
      (od : OrderResponse.t) :
  run classification_agent hist = Ok (Classification c) ->
  ClassificationResponse.category c = "order" ->
  run order_agent hist = Ok (Order od) ->
  OrderResponse.human_approval od = true ->
  process_workflow run message h =
    ({| history :=
          hist ++ [assistant_turn
                     (order_summary (OrderResponse.order_item_name od)
                                    (OrderResponse.order_amount od))];
        state := <["pending_approval" := true]> (state h);
        calls := calls h ++
                 [logged classification_agent hist (Ok (Classification c));
                  logged order_agent hist (Ok (Order od))] |},
     Ok (ClassificationResponse.category c,
         PyFloat (ClassificationResponse.confidence c))).
Proof.
  intros Hc Hcat Ho Hap. run_monad. unfold pending_approval in Hidle.
  rewrite Hidle. cbn. fold (user_turn message). rewrite Hc.
  run_monad. rewrite Hcat, agent_map_order. cbn. rewrite Ho. cbn.
  rewrite Hap. cbn. rewrite <- (app_assoc (calls h)). reflexivity.
Qed.

Lemma idle_response (c : ClassificationResponse.t) (a : Agent)
      (o : FinalOutput) (r : string) :
  run classification_agent hist = Ok (Classification c) ->
  agent_map !! ClassificationResponse.category c = Some a ->
  run a hist = Ok o ->
  response_of o = Some r ->
  (ClassificationResponse.category c = "order" ->
   exists od, o = Order od /\ OrderResponse.human_approval od = false) ->
  process_workflow run message h =
    ({| history := hist ++ [assistant_turn r];
        state := state h;
        calls := calls h ++
                 [logged classification_agent hist (Ok (Classification c));
                  logged a hist (Ok o)] |},
     Ok (ClassificationResponse.category c,
         PyFloat (ClassificationResponse.confidence c))).
Proof.
  intros Hc Hm Ha Hr Hord. run_monad. unfold pending_approval in Hidle.
  rewrite Hidle. cbn. fold (user_turn message). rewrite Hc.
  run_monad. rewrite Hm. cbn. rewrite Ha.
  destruct (String.eqb (ClassificationResponse.category c) "order") eqn:E.
  - apply String.eqb_eq in E. destruct (Hord E) as (od & -> & Hap).
    cbn. rewrite Hap. cbn. cbn in Hr. injection Hr as <-.
    rewrite <- (app_assoc (calls h)). reflexivity.
  - destruct o; cbn in Hr; try discriminate Hr; injection Hr as <-; cbn;
      rewrite <- (app_assoc (calls h)); reflexivity.
Qed.

End IdleBranch.

Lemma process_workflow_spec (run : Runner) (message : string) (h : Heap) :
  turn_spec run message h (process_workflow run message h).
Proof.
  destruct (pending_approval (state h)) eqn:Hp.
  - rewrite approval_branch by assumption. now constructor.
  - apply TIdle; [assumption|].
    set (hist := history h ++ [user_turn message]).
    run_monad. unfold pending_approval in Hp. rewrite Hp. cbn.
    fold (user_turn message). fold hist.
    destruct (run classification_agent hist) as [o|e] eqn:Hc;
      [|now apply IClassifierRaises].
    destruct o as [c| | | |];
      try (run_monad; now eapply IClassifierIllTyped; eauto).
    run_monad.
    destruct (agent_map !! ClassificationResponse.category c) as [a|] eqn:Hm;
      [|cbn; now apply IUnmapped].
    cbn. rewrite <- (app_assoc (calls h)). cbn.
    destruct (run a hist) as [o|e] eqn:Ha;
      [|now eapply IResponderRaises; eauto].
    destruct (String.eqb (ClassificationResponse.category c) "order") eqn:Ho.
    + apply String.eqb_eq in Ho. pose proof Hm as Hm'.
      rewrite Ho, agent_map_order in Hm'. injection Hm' as <-.
      destruct o as [c'|b|c'|r|od]; cbn.
      * now eapply INoResponse; eauto.
      * now eapply INoApprovalFlag; eauto.
      * now eapply INoApprovalFlag; eauto.
      * now eapply INoApprovalFlag; eauto.
      * destruct (OrderResponse.human_approval od) eqn:Hap; cbn.
        -- now apply IOrderApproval.
        -- eapply (IResponse _ _ _ c order_agent (Order od)); eauto.
    + apply String.eqb_neq in Ho.
      destruct o as [c'|b|c'|r|od]; cbn;
        [now eapply INoResponse; eauto
        |eapply (IResponse _ _ _ c a); eauto; intros; contradiction ..].
Qed.

(** ** The [.2f] format *)

Module FmtFacts.
Import Fmt.

Lemma is_digit_digit (d : N) : (d < 10)%N -> is_digit (digit d) = true.
Proof.
  intros Hd.
  assert (d = 0 \/ d = 1 \/ d = 2 \/ d = 3 \/ d = 4 \/ d = 5 \/ d = 6 \/
          d = 7 \/ d = 8 \/ d = 9)%N as Hcases by lia.
  repeat (destruct Hcases as [-> | Hcases]; [reflexivity|]).
  subst d. reflexivity.
Qed.

Lemma all_digits_nilempty (u : Decimal.uint) :
  all_digits (NilEmpty.string_of_uint u) = true.
Proof. induction u; cbn; auto. Qed.

Lemma all_digits_decimal (n : N) : all_digits (decimal n) = true.
Proof.
  unfold decimal, NilZero.string_of_uint.
  destruct (N.to_uint n) eqn:E; try reflexivity;
    rewrite <- E; apply all_digits_nilempty.
Qed.

Lemma decimal_nonempty (n : N) : decimal n <> EmptyString.
Proof.
  unfold decimal, NilZero.string_of_uint.
  destruct (N.to_uint n); cbn; discriminate.
Qed.

Lemma fixed2_body_step (c c' : ascii) (s : string) :
  is_digit c = true -> is_digit c' = true ->
  fixed2_body (String c (String c' s)) = fixed2_body (String c' s).
Proof.
  intros Hc Hc'. cbn [fixed2_body]. rewrite Hc. cbn [andb].
  destruct c' as [[] [] [] [] [] [] [] []]; try discriminate Hc'; reflexivity.
Qed.

Lemma fixed2_body_digits (ds : string) (d1 d2 : ascii) :
  ds <> EmptyString -> all_digits ds = true ->
  is_digit d1 = true -> is_digit d2 = true ->
  fixed2_body (ds ++ "." ++ String d1 (String d2 EmptyString))%string = true.
Proof.
  intros Hne Hds H1 H2. induction ds as [|c ds IH]; [contradiction|].
  cbn in Hds. apply andb_prop in Hds as [Hc Hds].
  destruct ds as [|c' ds].
  - change (fixed2_body
              (String c (String "." (String d1 (String d2 EmptyString)))) = true).
    cbn [fixed2_body]. now rewrite Hc, H1, H2.
  - cbn in Hds. pose proof Hds as Hds'. apply andb_prop in Hds' as [Hc' _].
    change (String c (String c' ds) ++ "." ++ String d1 (String d2 EmptyString))%string
      with (String c (String c' (ds ++ "." ++ String d1 (String d2 EmptyString))%string)).
    rewrite fixed2_body_step by assumption.
    apply IH; [discriminate | exact Hds].
Qed.

Lemma two_decimal_places_fixed2 (s : bool) (h : N) :
  two_decimal_places (sign s ++ fixed2 h)%string = true.
Proof.
  assert (fixed2_body (fixed2 h) = true) as Hbody.
  { unfold fixed2. apply fixed2_body_digits.
    - apply decimal_nonempty.
    - apply all_digits_decimal.
    - apply is_digit_digit, N.mod_lt. discriminate.
    - apply is_digit_digit, N.mod_lt. discriminate. }
  destruct s; cbn [sign].
  - exact Hbody.
  - change ("" ++ fixed2 h)%string with (fixed2 h).
    revert Hbody. unfold fixed2.
    pose proof (decimal_nonempty (h / 100)) as Hne.
    pose proof (all_digits_decimal (h / 100)) as Hds.
    destruct (decimal (h / 100)) as [|c ds]; [contradiction|].
    cbn in Hds. apply andb_prop in Hds as [Hc _].
    intros Hbody.
    destruct c as [[] [] [] [] [] [] [] []]; try discriminate Hc; exact Hbody.
Qed.

(** [hundredths] is a nearest integer: for [|x| = m / 2^p] it is within
    one half of [100 * |x|]. *)
Lemma hundredths_nearest (m p : positive) :
  let d := (2 ^ Npos p)%N in
  let h := hundredths m (Zneg p) in
  (2 * h * d <= 200 * Npos m + d /\ 200 * Npos m <= 2 * h * d + d)%N.
Proof.
  intros d h. subst h. unfold hundredths. rewrite N.shiftl_1_l. fold d.
  assert (d <> 0)%N as Hd by (apply N.pow_nonzero; discriminate).
  pose proof (N.div_mod (Npos m * 100) d Hd) as Hdiv.
  pose proof (N.mod_lt (Npos m * 100) d Hd) as Hlt.
  set (q := (Npos m * 100 / d)%N) in *.
  set (r := ((Npos m * 100) mod d)%N) in *.
  destruct (N.compare_spec (2 * r) d) as [He | Hl | Hg].
  - destruct (N.even q); lia.
  - lia.
  - lia.
Qed.

(** With a non-negative exponent the value is an integer and its
    hundredths are exact. *)
Lemma hundredths_exact (m : positive) (e : Z) :
  (0 <= e)%Z -> hundredths m e = (Npos m * 100 * 2 ^ Z.to_N e)%N.
Proof.
  intros He. unfold hundredths. destruct e as [|p|p]; [| |lia].
  - cbn [Z.to_N]. now rewrite N.pow_0_r, N.mul_1_r.
  - cbn [Z.to_N]. now rewrite N.shiftl_mul_pow2.
Qed.

(** A finite amount is printed with exactly two decimal places. *)
Lemma format_2f_finite (x : float) :
  finite x = true -> two_decimal_places (format_2f x) = true.
Proof.
  unfold finite, format_2f.
  destruct (Prim2SF x); try discriminate; intros _;
    apply two_decimal_places_fixed2.
Qed.

(** An amount that is not finite is printed as a word. *)
Lemma format_2f_not_finite (x : float) :
  finite x = false ->
  format_2f x = "inf" \/ format_2f x = "-inf" \/ format_2f x = "nan".
Proof.
  unfold finite, format_2f.
  destruct (Prim2SF x) as [s|s| |s m e]; try discriminate; intros _.
  - destruct s; auto.
  - auto.
Qed.

End FmtFacts.

(** ** Lower-casing and stripping *)

Module StrFacts.
Import Str.

Lemma prefix_rest_length (tok s r : string) :
  prefix_rest tok s = Some r ->
  String.length s = String.length tok + String.length r.
Proof.
  revert s. induction tok as [|a tok IH]; intros s H.
  - cbn in H. now injection H as <-.
  - destruct s as [|b s]; [discriminate H|]. cbn in H.
    destruct (Ascii.eqb a b); [|discriminate H].
    cbn. now rewrite (IH s H).
Qed.

Lemma first_rest_shorter (toks : list string) (s r : string) :
  Forall (fun tok => tok <> EmptyString) toks ->
  first_rest toks s = Some r -> String.length r < String.length s.
Proof.
  induction 1 as [|tok toks Hne _ IH]; [discriminate|]. cbn.
  destruct (prefix_rest tok s) as [r'|] eqn:E; [|exact IH].
  intros [= ->]. apply prefix_rest_length in E.
  destruct tok; [contradiction|]. cbn in E. lia.
Qed.

(** With a fuel of the length of the string, [strip_front] stops because
    nothing is left to remove, not because the fuel is used up. *)
Lemma strip_front_done (toks : list string) (fuel : nat) (s : string) :
  Forall (fun tok => tok <> EmptyString) toks ->
  String.length s <= fuel ->
  first_rest toks (strip_front toks fuel s) = None.
Proof.
  intros Hne. revert s. induction fuel as [|fuel IH]; intros s Hlen.
  - destruct s; [|cbn in Hlen; lia]. cbn.
    destruct (first_rest toks "") as [r|] eqn:E; [|reflexivity].
    apply (first_rest_shorter _ _ _ Hne) in E. cbn in E. lia.
  - cbn. destruct (first_rest toks s) as [r|] eqn:E; [|exact E].
    apply IH. apply (first_rest_shorter _ _ _ Hne) in E. lia.
Qed.

Lemma whitespace_nonempty :
  Forall (fun tok => tok <> EmptyString) whitespace.
Proof. repeat constructor; discriminate. Qed.

(** The result of [lstrip] starts with no whitespace character. *)
Lemma lstrip_done (s : string) : first_rest whitespace (lstrip s) = None.
Proof. apply strip_front_done; [apply whitespace_nonempty | lia]. Qed.

Lemma length_string_of_list_ascii (l : list ascii) :
  String.length (string_of_list_ascii l) = length l.
Proof. induction l as [|c l IH]; cbn; congruence. Qed.

Lemma length_list_ascii_of_string (s : string) :
  length (list_ascii_of_string s) = String.length s.
Proof. induction s as [|c s IH]; cbn; congruence. Qed.

Lemma length_rev_string (s : string) :
  String.length (rev_string s) = String.length s.
Proof.
  unfold rev_string.
  now rewrite length_string_of_list_ascii, length_rev,
    length_list_ascii_of_string.
Qed.

Lemma rev_whitespace_nonempty :
  Forall (fun tok => tok <> EmptyString) (map rev_string whitespace).
Proof. repeat constructor; discriminate. Qed.

Lemma first_rest_plain (toks : list string) (c : ascii) (s : string) :
  forallb starts_unplain toks = true ->
  plain_char c = true ->
  first_rest toks (String c s) = None.
Proof.
  intros Htoks Hc. induction toks as [|tok toks IH]; [reflexivity|].
  cbn in Htoks. apply andb_prop in Htoks as [Htok Htoks].
  cbn [first_rest]. destruct tok as [|a tok]; [discriminate Htok|].
  cbn [prefix_rest]. destruct (Ascii.eqb_spec a c) as [->|_].
  - cbn in Htok. now rewrite Hc in Htok.
  - now apply IH.
Qed.

Lemma strip_front_plain (toks : list string) (fuel : nat) (s : string) :
  forallb starts_unplain toks = true ->
  plain s = true ->
  strip_front toks fuel s = s.
Proof.
  intros Htoks Hs. destruct fuel as [|fuel]; [reflexivity|]. cbn.
  destruct s as [|c s].
  - destruct (first_rest toks "") as [r|] eqn:E; [|reflexivity].
    exfalso. clear Hs. induction toks as [|tok toks IH]; [discriminate E|].
    cbn in Htoks. apply andb_prop in Htoks as [Htok Htoks].
    destruct tok; [discriminate Htok|]. cbn in E. now apply IH.
  - unfold plain in Hs. cbn in Hs. apply andb_prop in Hs as [Hc _].
    now rewrite first_rest_plain.
Qed.

Lemma rev_string_involutive (s : string) : rev_string (rev_string s) = s.
Proof.
  unfold rev_string.
  now rewrite list_ascii_of_string_of_list_ascii, rev_involutive,
    string_of_list_ascii_of_string.
Qed.

Lemma plain_rev_string (s : string) : plain (rev_string s) = plain s.
Proof.
  unfold plain, rev_string. rewrite list_ascii_of_string_of_list_ascii.
  induction (list_ascii_of_string s) as [|c l IH]; [reflexivity|].
  cbn [rev]. rewrite forallb_app, IH. cbn. rewrite andb_true_r.
  apply andb_comm.
Qed.

(** The result of [rstrip] ends with no whitespace character. *)
Lemma rstrip_done (s : string) :
  first_rest (map rev_string whitespace) (rev_string (rstrip s)) = None.
Proof.
  unfold rstrip. rewrite rev_string_involutive.
  apply strip_front_done; [apply rev_whitespace_nonempty|].
  now rewrite length_rev_string.
Qed.

(** A string of printable ASCII characters without a space has nothing to
    strip. *)
Lemma strip_plain (s : string) : plain s = true -> strip s = s.
Proof.
  intros Hs. unfold strip, lstrip.
  rewrite (strip_front_plain whitespace _ s eq_refl Hs). unfold rstrip.
  rewrite strip_front_plain;
    [apply rev_string_involutive | reflexivity | now rewrite plain_rev_string].
Qed.

Lemma plain_char_lower (c : ascii) :
  plain_char (lower_char c) = plain_char c.
Proof. destruct c as [[] [] [] [] [] [] [] []]; reflexivity. Qed.

Lemma plain_lower (s : string) : plain (lower s) = plain s.
Proof.
  unfold plain. induction s as [|c s IH]; [reflexivity|].
  cbn. now rewrite plain_char_lower, IH.
Qed.

Lemma in_list_affirmative (w : string) :
  in_list w affirmative = true -> w = "yes" \/ w = "y" \/ w = "approve".
Proof.
  unfold in_list, affirmative. cbn [existsb].
  rewrite !orb_true_iff, !String.eqb_eq. intuition discriminate.
Qed.

(** A message whose lower-casing is an affirmative word has nothing to
    strip. *)
Lemma affirmative_strip (message : string) :
  in_list (lower message) affirmative = true -> strip message = message.
Proof.
  intros H. apply strip_plain. rewrite <- plain_lower.
  apply in_list_affirmative in H as [-> | [-> | ->]]; reflexivity.
Qed.

End StrFacts.

(** ** Turns of a session *)

Lemma turn_spec_of (run : Runner) (message : string) (s : Session) :
  turn_spec run message
    {| history := history_state s; state := workflow_state s; calls := [] |}
    (turn run message s).
Proof. apply process_workflow_spec. Qed.

Lemma pending_insert (st : gmap string bool) (b : bool) :
  pending_approval (<["pending_approval" := b]> st) = b.
Proof. unfold pending_approval. now rewrite lookup_insert_eq. Qed.

Lemma turn_approval (run : Runner) (message : string) (s : Session) :
  pending_approval (workflow_state s) = true ->
  turn run message s =
    ({| history := history_state s ++
                   [user_turn message;
                    assistant_turn (reply_to_approval message)];
        state := <["pending_approval" := false]> (workflow_state s);
        calls := [] |},
     Ok ("Order", PyFloat 1)).
Proof. intros Hp. unfold turn. now rewrite approval_branch. Qed.

Lemma submit_history (run : Runner) (message : string) (s : Session) :
  history_state (submit run message s) = history (turn run message s).1.
Proof. unfold submit. now destruct (turn run message s) as [h [[cat conf]|e]]. Qed.

Lemma submit_state (run : Runner) (message : string) (s : Session) :
  workflow_state (submit run message s) = state (turn run message s).1.
Proof. unfold submit. now destruct (turn run message s) as [h [[cat conf]|e]]. Qed.

(** ** C2: the reply to a pending approval *)

(** C2, as the code has it: while an approval is pending, the appended
    assistant reply is the approval sentence followed by its mark when the
    lower-cased message, not stripped, is one of "yes", "y", "approve", and
    the cancellation sentence followed by its mark for any other message;
    in both cases [pending_approval] is set to [False]. *)
Theorem approval_reply (run : Runner) (message : string) (s : Session) :
  pending_approval (workflow_state s) = true ->
  let s' := submit run message s in
  history_state s' =
    history_state s ++
    [user_turn message;
     assistant_turn
       (if Str.in_list (Str.lower message) affirmative
        then "Order approved and sent to shipping! " ++ approved_mark
        else "Order cancelled at your request. " ++ cancelled_mark)] /\
  chatbot s' = history_state s' /\
  workflow_state s' = <["pending_approval" := false]> (workflow_state s) /\
  pending_approval (workflow_state s') = false.
Proof.
  intros Hp s'. subst s'. unfold submit. rewrite turn_approval by assumption.
  cbn. rewrite pending_insert. repeat split.
Qed.

Lemma approval_reply_witness :
  pending_approval (workflow_state Scenario.awaiting) = true /\
  history_state (submit Scenario.down "Approve" Scenario.awaiting) =
    history_state Scenario.awaiting ++
    [user_turn "Approve"; assistant_turn approved_text].
Proof.
  split; [reflexivity|].
  apply (approval_reply Scenario.down "Approve" Scenario.awaiting).
  reflexivity.
Defined.

(** C2 as the specification words it fails twice: the input is not
    trimmed, so " yes " is answered with the cancellation; and neither
    reply is exactly the bare sentence. *)
Lemma approval_reply_counterexample :
  pending_approval (workflow_state Scenario.awaiting) = true /\
  Str.in_list (Str.lower (Str.strip " yes ")) affirmative = true /\
  history_state (submit Scenario.down " yes " Scenario.awaiting) =
    history_state Scenario.awaiting ++
    [user_turn " yes "; assistant_turn cancelled_text] /\
  history_state (submit Scenario.down "yes" Scenario.awaiting) =
    history_state Scenario.awaiting ++
    [user_turn "yes"; assistant_turn approved_text] /\
  cancelled_text <> "Order approved and sent to shipping!" /\
  approved_text <> "Order approved and sent to shipping!" /\
  cancelled_text <> "Order cancelled at your request.".
Proof.
  repeat split; try reflexivity; discriminate.
Qed.

(** ** C7: an approval turn does not depend on the collaborators *)

(** C7: while an approval is pending, the turn makes no runner call, so
    its heap, result and session are the same for any two runners; the
    displayed category is "Order" and the displayed confidence 1.0. *)
Theorem approval_turn_is_local (run1 run2 : Runner) (message : string)
        (s : Session) :
  pending_approval (workflow_state s) = true ->
  turn run1 message s = turn run2 message s /\
  submit run1 message s = submit run2 message s /\
  calls (turn run1 message s).1 = [] /\
  (turn run1 message s).2 = Ok ("Order", PyFloat 1) /\
  category_label (submit run1 message s) = Some "Order" /\
  confidence_label (submit run1 message s) = Some (PyFloat 1).
Proof.
  intros Hp. unfold submit.
  rewrite (turn_approval run1), (turn_approval run2) by assumption.
  cbn. repeat split.
Qed.

Lemma approval_turn_is_local_witness :
  turn (Scenario.stub Scenario.books_classification) "yes" Scenario.awaiting =
  turn Scenario.down "yes" Scenario.awaiting.
Proof.
  apply (approval_turn_is_local
           (Scenario.stub Scenario.books_classification) Scenario.down
           "yes" Scenario.awaiting).
  reflexivity.
Defined.

(** ** C10: the message is not stripped *)

(** C10: while an approval is pending, the affirmative check is made on
    the lower-cased message as typed, not stripped.  A message that is an
    affirmative word only once stripped (its stripped form lower-cases to
    "yes", "y" or "approve", and stripping changes it) is not itself
    affirmative and is answered with the cancellation reply, whereas its
    stripped form would have been answered with the approval. *)
Theorem unstripped_affirmative_is_cancelled (run : Runner) (message : string)
        (s : Session) :
  pending_approval (workflow_state s) = true ->
  Str.in_list (Str.lower (Str.strip message)) affirmative = true ->
  Str.strip message <> message ->
  Str.in_list (Str.lower message) affirmative = false /\
  history_state (submit run message s) =
    history_state s ++ [user_turn message; assistant_turn cancelled_text] /\
  history_state (submit run (Str.strip message) s) =
    history_state s ++
    [user_turn (Str.strip message); assistant_turn approved_text].
Proof.
  intros Hp Haff Hstrip.
  assert (Str.in_list (Str.lower message) affirmative = false) as Hneg.
  { destruct (Str.in_list (Str.lower message) affirmative) eqn:E; [|reflexivity].
    now apply StrFacts.affirmative_strip in E. }
  split; [exact Hneg|].
  rewrite !submit_history, !turn_approval by assumption. cbn [fst history].
  unfold reply_to_approval. now rewrite Hneg, Haff.
Qed.

Lemma unstripped_affirmative_is_cancelled_witness :
  history_state (submit Scenario.down " yes " Scenario.awaiting) =
    history_state Scenario.awaiting ++
    [user_turn " yes "; assistant_turn cancelled_text] /\
  history_state (submit Scenario.down "yes " Scenario.awaiting) =
    history_state Scenario.awaiting ++
    [user_turn "yes "; assistant_turn cancelled_text] /\
  history_state
    (submit Scenario.down Scenario.yes_then_no_break_space Scenario.awaiting) =
    history_state Scenario.awaiting ++
    [user_turn Scenario.yes_then_no_break_space;
     assistant_turn cancelled_text].
Proof.
  split; [|split].
  - apply (unstripped_affirmative_is_cancelled Scenario.down " yes "
             Scenario.awaiting); [reflexivity | reflexivity | discriminate].
  - apply (unstripped_affirmative_is_cancelled Scenario.down "yes "
             Scenario.awaiting); [reflexivity | reflexivity | discriminate].
  - apply (unstripped_affirmative_is_cancelled Scenario.down
             Scenario.yes_then_no_break_space Scenario.awaiting);
      [reflexivity | reflexivity | discriminate].
Defined.

(** ** Turns that start with no approval pending *)

Section IdleTurn.

Variable run : Runner.
Variable message : string.
Variable s : Session.

Hypothesis Hidle : pending_approval (workflow_state s) = false.

Local Abbreviation hist := (history_state s ++ [user_turn message]).
Local Abbreviation h0 :=
  {| history := history_state s; state := workflow_state s; calls := [] |}.

Lemma turn_classifier_raises (e : Exn) :
  run classification_agent hist = Raise e ->
  turn run message s =
    ({| history := hist;
        state := workflow_state s;
        calls := [logged classification_agent hist (Raise e)] |},
     Raise e).
Proof. exact (idle_classifier_raises run message h0 Hidle e). Qed.

Lemma turn_unmapped (c : ClassificationResponse.t) :
  run classification_agent hist = Ok (Classification c) ->
  agent_map !! ClassificationResponse.category c = None ->
  turn run message s =
    ({| history := hist ++ [assistant_turn apology];
        state := workflow_state s;
        calls := [logged classification_agent hist (Ok (Classification c))] |},
     Ok (ClassificationResponse.category c,
         PyFloat (ClassificationResponse.confidence c))).
Proof. exact (idle_unmapped run message h0 Hidle c). Qed.

Lemma turn_order_approval (c : ClassificationResponse.t)
      (od : OrderResponse.t) :
  run classification_agent hist = Ok (Classification c) ->
  ClassificationResponse.category c = "order" ->
  run order_agent hist = Ok (Order od) ->
  OrderResponse.human_approval od = true ->
  turn run message s =
    ({| history :=
          hist ++ [assistant_turn
                     (order_summary (OrderResponse.order_item_name od)
                                    (OrderResponse.order_amount od))];
        state := <["pending_approval" := true]> (workflow_state s);
        calls := [logged classification_agent hist (Ok (Classification c));
                  logged order_agent hist (Ok (Order od))] |},
     Ok (ClassificationResponse.category c,
         PyFloat (ClassificationResponse.confidence c))).
Proof. exact (idle_order_approval run message h0 Hidle c od). Qed.

Lemma turn_response (c : ClassificationResponse.t) (a : Agent)
      (o : FinalOutput) (r : string) :
  run classification_agent hist = Ok (Classification c) ->
  agent_map !! ClassificationResponse.category c = Some a ->
  run a hist = Ok o ->
  response_of o = Some r ->
  (ClassificationResponse.category c = "order" ->
   exists od, o = Order od /\ OrderResponse.human_approval od = false) ->
  turn run message s =
    ({| history := hist ++ [assistant_turn r];
        state := workflow_state s;
        calls := [logged classification_agent hist (Ok (Classification c));
                  logged a hist (Ok o)] |},
     Ok (ClassificationResponse.category c,
         PyFloat (ClassificationResponse.confidence c))).
Proof. exact (idle_response run message h0 Hidle c a o r). Qed.

End IdleTurn.

Lemma agent_map_unmapped (category : string) :
  category ∉ ["books"; "clothing"; "retention"; "order"] <->
  agent_map !! category = None.
Proof.
  unfold agent_map. rewrite !not_elem_of_cons.
  split.
  - intros (H1 & H2 & H3 & H4 & _).
    rewrite !lookup_insert_ne by congruence. apply lookup_empty.
  - intros H. repeat split; try apply not_elem_of_nil;
      intros ->; discriminate H.
Qed.

(** ** C1: an order that needs approval *)

(** C1, as the code has it: in a turn that starts with no approval
    pending, when the classifier answers category "order" and the order
    agent answers an order with [human_approval=True], the router sets
    [pending_approval] and the appended assistant message is exactly
    "Order summary: {order_item_name} (${order_amount:.2f}). Approve this
    order? (yes/no)"; the amount is printed with exactly two decimal places
    when it is finite, and as "inf", "-inf" or "nan" when it is not. *)
Theorem order_summary_prompt (run : Runner) (message : string) (s : Session)
        (c : ClassificationResponse.t) (od : OrderResponse.t) :
  pending_approval (workflow_state s) = false ->
  run classification_agent (history_state s ++ [user_turn message]) =
    Ok (Classification c) ->
  ClassificationResponse.category c = "order" ->
  run order_agent (history_state s ++ [user_turn message]) = Ok (Order od) ->
  OrderResponse.human_approval od = true ->
  let s' := submit run message s in
  let amount := Fmt.format_2f (OrderResponse.order_amount od) in
  pending_approval (workflow_state s') = true /\
  history_state s' =
    history_state s ++
    [user_turn message;
     assistant_turn
       ("Order summary: " ++ OrderResponse.order_item_name od ++ " ($" ++
        amount ++ "). Approve this order? (yes/no)")] /\
  chatbot s' = history_state s' /\
  (Fmt.finite (OrderResponse.order_amount od) = true ->
   Fmt.two_decimal_places amount = true) /\
  (Fmt.finite (OrderResponse.order_amount od) = false ->
   amount = "inf" \/ amount = "-inf" \/ amount = "nan").
Proof.
  intros Hidle Hc Hcat Ho Hap s' amount. subst s' amount. unfold submit.
  rewrite (turn_order_approval run message s Hidle c od Hc Hcat Ho Hap).
  cbn. rewrite pending_insert, <- app_assoc.
  repeat split.
  - apply FmtFacts.format_2f_finite.
  - apply FmtFacts.format_2f_not_finite.
Qed.

Lemma order_summary_prompt_witness :
  let s' :=
    submit (Scenario.stub Scenario.order_classification)
      "I want to order book #2" initial_session in
  pending_approval (workflow_state s') = true /\
  history_state s' =
    [user_turn "I want to order book #2";
     assistant_turn
       "Order summary: Atomic Habits ($19.99). Approve this order? (yes/no)"].
Proof.
  destruct (order_summary_prompt
              (Scenario.stub Scenario.order_classification)
              "I want to order book #2" initial_session
              {| ClassificationResponse.reason := "wants to order";
                 ClassificationResponse.category := "order";
                 ClassificationResponse.confidence := 0x1.ccccccccccccdp-1 |}
              {| OrderResponse.human_approval := true;
                 OrderResponse.order_item_name := "Atomic Habits";
                 OrderResponse.item_id := 2;
                 OrderResponse.order_id := 1001;
                 OrderResponse.order_amount := 0x1.3fd70a3d70a3dp+4;
                 OrderResponse.response := "Please confirm your order." |}
              eq_refl eq_refl eq_refl eq_refl eq_refl)
    as (Hp & Hh & _).
  split; [exact Hp | exact Hh].
Defined.

(** C1 as the specification words it fails on an amount that is not a
    number: the summary then shows "inf", which has no decimal places. *)
Lemma order_summary_prompt_counterexample :
  let s' :=
    submit (Scenario.stub_with Scenario.order_classification
              Scenario.atomic_habits_book Scenario.overflowing_order)
      "I want to order book #2" initial_session in
  pending_approval (workflow_state s') = true /\
  history_state s' =
    [user_turn "I want to order book #2";
     assistant_turn
       "Order summary: Atomic Habits ($inf). Approve this order? (yes/no)"] /\
  Fmt.format_2f infinity = "inf" /\
  Fmt.two_decimal_places "inf" = false.
Proof. repeat split. Qed.

(** ** C4: a category with no responder *)

(** C4: in a turn that starts with no approval pending, when the
    classifier answers a category outside books, clothing, retention and
    order, the classifier call is the only runner call, the appended
    assistant message is exactly the apology, the state is unchanged (no
    approval pending), and the displayed category and confidence are those
    the classifier returned. *)
Theorem unmapped_category_fallback (run : Runner) (message : string)
        (s : Session) (c : ClassificationResponse.t) :
  pending_approval (workflow_state s) = false ->
  run classification_agent (history_state s ++ [user_turn message]) =
    Ok (Classification c) ->
  ClassificationResponse.category c ∉
    ["books"; "clothing"; "retention"; "order"] ->
  let s' := submit run message s in
  calls (turn run message s).1 =
    [logged classification_agent (history_state s ++ [user_turn message])
       (Ok (Classification c))] /\
  history_state s' =
    history_state s ++
    [user_turn message;
     assistant_turn
       "I'm sorry, I couldn't categorize your request correctly."] /\
  chatbot s' = history_state s' /\
  workflow_state s' = workflow_state s /\
  pending_approval (workflow_state s') = false /\
  category_label s' = Some (ClassificationResponse.category c) /\
  confidence_label s' = Some (PyFloat (ClassificationResponse.confidence c)).
Proof.
  intros Hidle Hc Hcat s'. subst s'. unfold submit.
  apply agent_map_unmapped in Hcat.
  rewrite (turn_unmapped run message s Hidle c Hc Hcat).
  cbn. rewrite <- app_assoc. repeat split. exact Hidle.
Qed.

Lemma unmapped_category_fallback_witness :
  let s' :=
    submit (Scenario.classifier_only Scenario.refunds_classification)
      "I want my money back" initial_session in
  history_state s' =
    [user_turn "I want my money back";
     assistant_turn
       "I'm sorry, I couldn't categorize your request correctly."] /\
  category_label s' = Some "refunds".
Proof.
  destruct (unmapped_category_fallback
              (Scenario.classifier_only Scenario.refunds_classification)
              "I want my money back" initial_session
              {| ClassificationResponse.reason := "asks for money back";
                 ClassificationResponse.category := "refunds";
                 ClassificationResponse.confidence := 7.5 |})
    as (_ & Hh & _ & _ & _ & Hcat & _).
  - reflexivity.
  - reflexivity.
  - apply agent_map_unmapped. reflexivity.
  - split; [exact Hh | exact Hcat].
Defined.

(** ** What every turn does *)

Lemma agent_map_responder (category : string) (a : Agent) :
  agent_map !! category = Some a -> a <> classification_agent.
Proof.
  unfold agent_map. rewrite !lookup_insert_Some, lookup_empty.
  intros H ->. intuition discriminate.
Qed.

Ltac turn_cases run message s :=
  let Hspec := fresh "Hspec" in
  let out := fresh "out" in
  let E := fresh "E" in
  pose proof (turn_spec_of run message s) as Hspec;
  remember (turn run message s) as out eqn:E; clear E;
  destruct Hspec as [Hp | outcome Hp Hi];
  [| destruct Hi as [e Hc | o Hc Hty | c Hc Hm | c a e Hc Hm Ha
                    | c a o Hc Hm Ha Hr | c o r Hc Hcat Ha Hr Hty
                    | c a o r Hc Hm Ha Hr Hord | c od Hc Hcat Ha Hap]];
  cbn in *.

(** The history after a turn: the user's message, then one assistant
    message if the turn returned and none if it raised. *)
Lemma turn_history (run : Runner) (message : string) (s : Session) :
  match (turn run message s).2 with
  | Ok _ =>
      exists reply,
        history (turn run message s).1 =
          history_state s ++ [user_turn message; assistant_turn reply]
  | Raise _ =>
      history (turn run message s).1 = history_state s ++ [user_turn message]
  end.
Proof.
  turn_cases run message s; try reflexivity;
    try (rewrite <- app_assoc); eexists; reflexivity.
Qed.

(** No agent is run twice in a turn, and at most two are run. *)
Lemma turn_calls (run : Runner) (message : string) (s : Session) :
  NoDup (map agent (calls (turn run message s).1)) /\
  length (calls (turn run message s).1) <= 2.
Proof.
  turn_cases run message s;
    repeat match goal with
      | H : agent_map !! _ = Some _ |- _ => apply agent_map_responder in H
      end;
    (split; [|lia]);
    repeat (apply NoDup_cons; split; [rewrite ?elem_of_cons, ?elem_of_nil; intuition congruence|]);
    apply NoDup_nil; exact I.
Qed.

(** The state after a turn: an approval is pending exactly when the turn
    returned having obtained an "order" classification and an order that
    needs approval. *)
Lemma pending_after_submit (sub : Submission) (s : Session) :
  pending_approval
    (workflow_state (submit (sub_run sub) (sub_message sub) s)) =
  completed sub s && produced_approval_order sub s.
Proof.
  rewrite submit_state. unfold completed, produced_approval_order.
  destruct sub as [run message]. cbn [sub_run sub_message].
  turn_cases run message s.
  all: rewrite ?pending_insert; try reflexivity.
  all: unfold is_order_classification, is_approval_order; cbn.
  all: try (rewrite Hp; reflexivity).
  - rewrite Hp. now rewrite andb_false_r.
  - rewrite Hp.
    destruct (String.eqb (ClassificationResponse.category c) "order") eqn:E.
    + apply String.eqb_eq in E. destruct (Hord E) as (od & -> & Hap).
      rewrite E, agent_map_order in Hm. injection Hm as <-.
      now rewrite Hap.
    + apply agent_map_responder in Hm. now destruct a.
  - now rewrite Hcat, Hap.
Qed.

(** A runner honours the declared output types when every final output it
    returns is an instance of the model its agent was declared with. *)
Lemma typed_runner_raises_only_its_errors (run : Runner) (message : string)
      (s : Session) (err : Exn) :
  (forall a l o, run a l = Ok o -> has_output_type a o = true) ->
  (turn run message s).2 = Raise err ->
  exists a l, run a l = Raise err.
Proof.
  intros Hty' Hraise. revert Hraise.
  turn_cases run message s; intros Hraise; try discriminate Hraise;
    injection Hraise as <-; eauto.
  - apply Hty' in Hc. now destruct o.
  - apply Hty' in Ha. apply agent_map_responder in Hm.
    destruct o; try discriminate Hr. now destruct a.
  - apply Hty' in Ha. now destruct o.
Qed.

Lemma submit_all_snoc (pre : list Submission) (sub : Submission) (s : Session) :
  submit_all (pre ++ [sub]) s =
  submit (sub_run sub) (sub_message sub) (submit_all pre s).
Proof. unfold submit_all. now rewrite fold_left_app. Qed.

Lemma run_events_snoc (evs : list Event) (ev : Event) (s : Session) :
  run_events (evs ++ [ev]) s = step (run_events evs s) ev.
Proof. unfold run_events. now rewrite fold_left_app. Qed.

(** ** C3: when an approval is pending *)

(** C3, as the code has it: after any sequence of submitted turns and
    clicks on the clear button from the initial session, [pending_approval]
    is true if and only if the last event of the sequence is a turn (so
    that neither a reply nor a click has followed it) that returned having
    obtained an "order" classification and an order with
    [human_approval=True]; a turn that returns without having obtained
    them leaves [pending_approval] false, and so does a click on the clear
    button. *)
Theorem pending_iff_last_event_is_approval_order (evs : list Event) :
  let s := run_events evs initial_session in
  (pending_approval (workflow_state s) = true <->
   exists (pre : list Event) (sub : Submission),
     evs = pre ++ [Submit sub] /\
     completed sub (run_events pre initial_session) = true /\
     produced_approval_order sub (run_events pre initial_session) = true) /\
  (forall sub : Submission,
     completed sub s = true ->
     produced_approval_order sub s = false ->
     pending_approval
       (workflow_state (submit (sub_run sub) (sub_message sub) s)) = false) /\
  pending_approval (workflow_state (clear s)) = false.
Proof.
  intros s. split; [|split].
  - subst s. induction evs as [|ev pre _] using rev_ind.
    + split; [discriminate|]. intros (pre & sub & Hnil & _).
      now destruct pre.
    + rewrite run_events_snoc. destruct ev as [sub|]; cbn [step].
      * rewrite pending_after_submit, andb_true_iff. split.
        -- intros [Hc Hp]. now exists pre, sub.
        -- intros (pre' & sub' & Heq & Hc & Hp).
           apply app_inj_tail in Heq as [<- [= <-]]. now split.
      * split; [discriminate|]. intros (pre' & sub' & Heq & _).
        apply app_inj_tail in Heq as [_ Heq]. discriminate Heq.
  - intros sub Hc Hp. now rewrite pending_after_submit, Hc, Hp.
  - reflexivity.
Qed.

(** C3 as the specification words it fails once the clear button is
    clicked: after scenario B's first turn and a click, the last completed
    turn produced an order that needs approval, the user has sent no reply
    (the history still ends with the order summary), and yet no approval is
    pending. *)
Lemma pending_after_clear_counterexample :
  let order_turn :=
    {| sub_run := Scenario.stub Scenario.order_classification;
       sub_message := "I want to order book #2" |} in
  let s := run_events [Submit order_turn; Clear] initial_session in
  completed order_turn initial_session = true /\
  produced_approval_order order_turn initial_session = true /\
  history_state s =
    [user_turn "I want to order book #2";
     assistant_turn
       "Order summary: Atomic Habits ($19.99). Approve this order? (yes/no)"] /\
  pending_approval (workflow_state s) = false.
Proof. repeat split. Qed.

(** ** C6: failed turns, and one reply per turn *)

(** C6: when the classifier call raises, or the call of the responder
    mapped to the category raises, the turn raises that same error after
    exactly one call of each agent it had reached (no call is repeated),
    the history is the prior history with the user's message appended and
    no assistant message, and the state is unchanged.  In every turn no
    agent is called twice, and the turns appended are the user's message
    followed by exactly one assistant message when the turn returns, and by
    none when it raises. *)
Theorem failed_turn_keeps_user_message (run : Runner) (message : string)
        (s : Session) :
  let hist := history_state s ++ [user_turn message] in
  let out := turn run message s in
  let s' := submit run message s in
  (forall e : Exn,
     pending_approval (workflow_state s) = false ->
     run classification_agent hist = Raise e ->
     out.2 = Raise e /\
     calls out.1 = [logged classification_agent hist (Raise e)] /\
     history_state s' = hist /\
     workflow_state s' = workflow_state s /\
     chatbot s' = chatbot s) /\
  (forall (c : ClassificationResponse.t) (a : Agent) (e : Exn),
     pending_approval (workflow_state s) = false ->
     run classification_agent hist = Ok (Classification c) ->
     agent_map !! ClassificationResponse.category c = Some a ->
     run a hist = Raise e ->
     out.2 = Raise e /\
     calls out.1 = [logged classification_agent hist (Ok (Classification c));
                    logged a hist (Raise e)] /\
     history_state s' = hist /\
     workflow_state s' = workflow_state s /\
     chatbot s' = chatbot s) /\
  NoDup (map agent (calls out.1)) /\
  (exists suffix : list Turn,
     history_state s' = history_state s ++ user_turn message :: suffix /\
     Forall (fun t => role t = "assistant") suffix /\
     length suffix = if completed {| sub_run := run; sub_message := message |} s
                     then 1 else 0).
Proof.
  intros hist out s'. subst hist out s'. repeat apply conj.
  - intros e Hidle Hc. unfold submit.
    rewrite (turn_classifier_raises run message s Hidle e Hc). now cbn.
  - intros c a e Hidle Hc Hm Ha. unfold submit.
    pose proof (turn_spec_of run message s) as Hspec.
    remember (turn run message s) as out eqn:E. clear E.
    destruct Hspec as [Hp | outcome Hp Hi]; cbn in Hp; [congruence|].
    destruct Hi as [e' H1 | o H1 H2 | c' H1 H2 | c' a' e' H1 H2 H3
                   | c' a' o H1 H2 H3 H4 | c' o r H1 H2 H3 H4 H5
                   | c' a' o r H1 H2 H3 H4 H5 | c' od H1 H2 H3 H4];
      cbn in *; rewrite Hc in H1; try discriminate H1; injection H1 as <-.
    + discriminate H2.
    + congruence.
    + rewrite Hm in H2. injection H2 as <-. rewrite Ha in H3.
      injection H3 as <-. repeat split.
    + congruence.
    + rewrite H2, agent_map_order in Hm. congruence.
    + congruence.
    + rewrite H2, agent_map_order in Hm. congruence.
  - apply turn_calls.
  - rewrite submit_history. unfold completed. cbn [sub_run sub_message].
    pose proof (turn_history run message s) as Hh.
    destruct (turn run message s) as [h [res|e]]; cbn in *.
    + destruct Hh as [reply ->]. exists [assistant_turn reply].
      repeat split. now repeat constructor.
    + rewrite Hh. exists []. repeat split. constructor.
Qed.

Lemma failed_turn_keeps_user_message_witness :
  (turn Scenario.down "hello" initial_session).2 =
    Raise (AgentsException "unavailable") /\
  history_state (submit Scenario.down "hello" initial_session) =
    [user_turn "hello"] /\
  (turn (Scenario.classifier_only Scenario.books_classification)
     "I want a good book" initial_session).2 =
    Raise (AgentsException "unavailable") /\
  history_state
    (submit (Scenario.classifier_only Scenario.books_classification)
       "I want a good book" initial_session) =
    [user_turn "I want a good book"].
Proof.
  destruct (failed_turn_keeps_user_message Scenario.down "hello"
              initial_session) as (Hcls & _).
  destruct (Hcls (AgentsException "unavailable") eq_refl eq_refl)
    as (H1 & _ & H2 & _).
  destruct (failed_turn_keeps_user_message
              (Scenario.classifier_only Scenario.books_classification)
              "I want a good book" initial_session) as (_ & Hresp & _).
  destruct (Hresp
              {| ClassificationResponse.reason := "asks for a book";
                 ClassificationResponse.category := "books";
                 ClassificationResponse.confidence := 0x1.d70a3d70a3d71p-1 |}
              book_agent (AgentsException "unavailable")
              eq_refl eq_refl eq_refl eq_refl)
    as (H3 & _ & H4 & _).
  repeat split; assumption.
Defined.

(** ** C8: the history only grows *)

(** C8: after any turn, returned or raised, and after any sequence of
    turns, the history is the prior history followed by further turns: the
    prior history is an unchanged prefix and the length does not
    decrease. *)
Theorem history_append_only :
  (forall (run : Runner) (message : string) (s : Session),
     exists suffix : list Turn,
       history_state (submit run message s) = history_state s ++ suffix /\
       length (history_state s) <= length (history_state (submit run message s))) /\
  (forall (subs : list Submission) (s : Session),
     exists suffix : list Turn,
       history_state (submit_all subs s) = history_state s ++ suffix /\
       length (history_state s) <= length (history_state (submit_all subs s))).
Proof.
  assert (forall run message s, exists suffix,
             history_state (submit run message s) = history_state s ++ suffix)
    as Hone.
  { intros run message s. rewrite submit_history.
    pose proof (turn_history run message s) as Hh.
    destruct ((turn run message s).2) as [res|e].
    - destruct Hh as [reply ->]. eauto.
    - rewrite Hh. eauto. }
  assert (forall subs s, exists suffix,
             history_state (submit_all subs s) = history_state s ++ suffix)
    as Hall.
  { intros subs. induction subs as [|sub pre IH] using rev_ind; intros s.
    - exists []. cbn. now rewrite app_nil_r.
    - rewrite submit_all_snoc.
      destruct (Hone (sub_run sub) (sub_message sub) (submit_all pre s))
        as [k ->].
      destruct (IH s) as [k' ->]. exists (k' ++ k). now rewrite app_assoc. }
  split.
  - intros run message s. destruct (Hone run message s) as [k Hk].
    exists k. split; [exact Hk|]. rewrite Hk, length_app. lia.
  - intros subs s. destruct (Hall subs s) as [k Hk].
    exists k. split; [exact Hk|]. rewrite Hk, length_app. lia.
Qed.

(** ** C5: results are not validated *)

Lemma agent_map_order_only (category : string) :
  agent_map !! category = Some order_agent -> category = "order".
Proof.
  unfold agent_map. rewrite !lookup_insert_Some, lookup_empty.
  intuition congruence.
Qed.

(** C5, as the code has it: a collaborator result is used as returned,
    with no check of the category, of the range of the confidence or of
    the response.  In a turn that starts with no approval pending, whatever
    category string and confidence the classifier returns, the turn returns
    when the category has no responder, and returns when its responder
    answers with a result of its declared type, whatever the response
    string is, the empty string included.  The response is appended
    unchanged, except for an order with [human_approval=True], for which
    the order summary is appended in its place; the displayed category and
    confidence are those returned. *)
Theorem results_used_as_returned (run : Runner) (message : string)
        (s : Session) (c : ClassificationResponse.t) :
  pending_approval (workflow_state s) = false ->
  run classification_agent (history_state s ++ [user_turn message]) =
    Ok (Classification c) ->
  let sub := {| sub_run := run; sub_message := message |} in
  let s' := submit run message s in
  (agent_map !! ClassificationResponse.category c = None ->
   completed sub s = true /\
   category_label s' = Some (ClassificationResponse.category c) /\
   confidence_label s' = Some (PyFloat (ClassificationResponse.confidence c))) /\
  (forall (a : Agent) (o : FinalOutput),
     agent_map !! ClassificationResponse.category c = Some a ->
     run a (history_state s ++ [user_turn message]) = Ok o ->
     has_output_type a o = true ->
     completed sub s = true /\
     (exists r : string,
        response_of o = Some r /\
        history_state s' =
          history_state s ++
          [user_turn message;
           assistant_turn
             match o with
             | Order od =>
                 if OrderResponse.human_approval od
                 then order_summary (OrderResponse.order_item_name od)
                                    (OrderResponse.order_amount od)
                 else r
             | _ => r
             end]) /\
     category_label s' = Some (ClassificationResponse.category c) /\
     confidence_label s' = Some (PyFloat (ClassificationResponse.confidence c))).
Proof.
  intros Hidle Hc sub s'. subst sub s'. unfold completed, submit.
  cbn [sub_run sub_message]. split.
  - intros Hm. rewrite (turn_unmapped run message s Hidle c Hc Hm).
    repeat split.
  - intros a o Hm Ha Hty.
    assert (exists r, response_of o = Some r) as [r Hr].
    { pose proof (agent_map_responder _ _ Hm).
      destruct a, o; try discriminate Hty; try contradiction; cbn; eauto. }
    destruct (match o with
              | Order od => OrderResponse.human_approval od
              | _ => false
              end) eqn:Hap.
    + destruct o as [| | | |od]; try discriminate Hap.
      destruct a; try discriminate Hty.
      pose proof (agent_map_order_only _ Hm) as Hcat.
      rewrite (turn_order_approval run message s Hidle c od Hc Hcat Ha Hap).
      cbn. rewrite Hap, <- app_assoc. repeat split. now exists r.
    + rewrite (turn_response run message s Hidle c a o r Hc Hm Ha Hr).
      * cbn. rewrite <- app_assoc. repeat split. exists r. split; [exact Hr|].
        destruct o; try reflexivity. now rewrite Hap.
      * intros Hcat. rewrite Hcat, agent_map_order in Hm. injection Hm as <-.
        destruct o; try discriminate Hty. eauto.
Qed.

Lemma results_used_as_returned_witness :
  let run :=
    Scenario.stub_with Scenario.books_classification Scenario.silent_book
      Scenario.atomic_habits_order in
  completed {| sub_run := run; sub_message := "I want a good book" |}
    initial_session = true /\
  history_state (submit run "I want a good book" initial_session) =
    [user_turn "I want a good book"; assistant_turn ""].
Proof.
  intros run.
  destruct (results_used_as_returned run "I want a good book" initial_session
              {| ClassificationResponse.reason := "asks for a book";
                 ClassificationResponse.category := "books";
                 ClassificationResponse.confidence := 0x1.d70a3d70a3d71p-1 |}
              eq_refl eq_refl) as (_ & Hmapped).
  destruct (Hmapped book_agent Scenario.silent_book eq_refl eq_refl eq_refl)
    as (Hdone & (r & Hr & Hh) & _).
  cbn in Hr. injection Hr as <-.
  split; [exact Hdone | exact Hh].
Defined.

(** C5 as the specification words it fails: a classification whose
    category is none of books, clothing, retention, order and unknown
    completes the turn and is displayed; so does one whose confidence is
    7.5; a book result with an empty response completes the turn and is
    appended. *)
Lemma results_validated_counterexample :
  let outside :=
    {| sub_run := Scenario.classifier_only Scenario.refunds_classification;
       sub_message := "I want my money back" |} in
  let overconfident :=
    {| sub_run := Scenario.stub Scenario.overconfident_classification;
       sub_message := "I want a good book" |} in
  let silent :=
    {| sub_run :=
         Scenario.stub_with Scenario.books_classification
           Scenario.silent_book Scenario.atomic_habits_order;
       sub_message := "I want a good book" |} in
  ("refunds" ∉ ["books"; "clothing"; "retention"; "order"; "unknown"]) /\
  PrimFloat.ltb 1 7.5 = true /\
  completed outside initial_session = true /\
  category_label (submit_all [outside] initial_session) = Some "refunds" /\
  completed overconfident initial_session = true /\
  confidence_label (submit_all [overconfident] initial_session) =
    Some (PyFloat 7.5) /\
  completed silent initial_session = true /\
  history_state (submit_all [silent] initial_session) =
    [user_turn "I want a good book"; assistant_turn ""].
Proof.
  repeat split. rewrite !not_elem_of_cons. repeat split; try discriminate.
  apply not_elem_of_nil.
Qed.

(** ** C9: the clear button *)

(** What [clear] stores in its four output components, from any
    session. *)
Lemma clear_outputs (s : Session) :
  chatbot (clear s) = [] /\
  workflow_state (clear s) = ∅ /\
  pending_approval (workflow_state (clear s)) = false /\
  category_label (clear s) = Some "" /\
  confidence_label (clear s) = Some (PyInt 0).
Proof. repeat split. Qed.

Lemma clear_idempotent (s : Session) : clear (clear s) = clear s.
Proof. reflexivity. Qed.

(** [history_state] is not among the outputs of [clear]. *)
Lemma clear_history_state (s : Session) :
  history_state (clear s) = history_state s.
Proof. reflexivity. Qed.

(** C9, evaluated on scenario A followed by a click on the button: the
    chat display, the state and the labels are reset, but the history
    list the router appends to still holds the two earlier turns, and the
    next turn sends them to the classifier and shows them again. *)
Theorem clear_keeps_history_state :
  let run := Scenario.stub Scenario.books_classification in
  let cleared := clear (submit run "I want a good book" initial_session) in
  chatbot cleared = [] /\
  workflow_state cleared = ∅ /\
  category_label cleared = Some "" /\
  confidence_label cleared = Some (PyInt 0) /\
  history_state cleared =
    [user_turn "I want a good book"; assistant_turn "Try Atomic Habits!"] /\
  map input (calls (turn run "Another one" cleared).1) =
    [[user_turn "I want a good book"; assistant_turn "Try Atomic Habits!";
      user_turn "Another one"];
     [user_turn "I want a good book"; assistant_turn "Try Atomic Habits!";
      user_turn "Another one"]] /\
  chatbot (submit run "Another one" cleared) =
    [user_turn "I want a good book"; assistant_turn "Try Atomic Habits!";
     user_turn "Another one"; assistant_turn "Try Atomic Habits!"].
Proof. repeat split. Qed.

(** ** The model on concrete inputs *)

Example format_19_99 : Fmt.format_2f 19.99 = "19.99".
Proof. reflexivity. Qed.

Example format_tie_to_even : Fmt.format_2f 0.125 = "0.12".
Proof. reflexivity. Qed.

Example format_tie_to_even_up : Fmt.format_2f 0.375 = "0.38".
Proof. reflexivity. Qed.

Example format_negative_rounds_to_zero : Fmt.format_2f (-0.001) = "-0.00".
Proof. reflexivity. Qed.

Example format_large : Fmt.format_2f 1e22 = "10000000000000000000000.00".
Proof. reflexivity. Qed.

Example format_nan : Fmt.format_2f nan = "nan".
Proof. reflexivity. Qed.

Example lower_mixed_case : Str.lower "YeS" = "yes".
Proof. reflexivity. Qed.

Example strip_spaces : Str.strip "  yes " = "yes".
Proof. reflexivity. Qed.

Example strip_no_break_space :
  Str.strip Scenario.yes_then_no_break_space = "yes".
Proof. reflexivity. Qed.

(** An ideographic space (U+3000) before, an em space (U+2003) after. *)
Example strip_wide_spaces :
  Str.strip
    (Str.of_bytes [227; 128; 128]%N ++ "Approve" ++ Str.of_bytes [226; 128; 131]%N)
  = "Approve".
Proof. reflexivity. Qed.

(** The last byte of U+00E0 is 0xA0, but it is not a no-break space. *)
Example strip_keeps_a_grave :
  Str.strip ("voil" ++ Str.of_bytes [195; 160]%N) =
  ("voil" ++ Str.of_bytes [195; 160]%N)%string.
Proof. reflexivity. Qed.

Example strip_all_whitespace :
  Str.strip (" " ++ Str.of_bytes [9; 194; 133; 10]%N) = "".
Proof. reflexivity. Qed.

(** Scenario A: a book query on an empty history. *)
Example scenario_A :
  submit (Scenario.stub Scenario.books_classification) "I want a good book"
    initial_session =
  {| history_state :=
       [user_turn "I want a good book"; assistant_turn "Try Atomic Habits!"];
     workflow_state := ∅;
     chatbot :=
       [user_turn "I want a good book"; assistant_turn "Try Atomic Habits!"];
     category_label := Some "books";
     confidence_label := Some (PyFloat 0.92) |}.
Proof. reflexivity. Qed.

(** Scenario B and its continuation: the order summary, then "yes". *)
Example scenario_B :
  history_state Scenario.awaiting =
    [user_turn "I want to order book #2";
     assistant_turn
       "Order summary: Atomic Habits ($19.99). Approve this order? (yes/no)"] /\
  workflow_state Scenario.awaiting !! "pending_approval" = Some true /\
  let answered := submit Scenario.down "yes" Scenario.awaiting in
  chatbot answered =
    history_state Scenario.awaiting ++
    [user_turn "yes"; assistant_turn approved_text] /\
  workflow_state answered !! "pending_approval" = Some false /\
  calls (turn Scenario.down "yes" Scenario.awaiting).1 = [].
Proof. repeat split. Qed.

(** * Further properties of the router *)

(** ** Which collaborators a turn runs, and on what *)

(** X1: when every final output the runner returns is an instance of the
    model its agent was declared with ([output_type=...]), an exception
    that aborts a turn is the one raised by the last runner call of that
    turn: the last entry of the turn's call log is a call on the turn's
    input whose answer was to raise that exception.  The attribute reads of
    [process_workflow] never fail. *)
Theorem attribute_reads_are_safe (run : Runner) (message : string)
        (s : Session) (err : Exn) :
  (forall agt l out, run agt l = Ok out -> has_output_type agt out = true) ->
  (turn run message s).2 = Raise err ->
  exists cl : Call,
    list.last (calls (turn run message s).1) = Some cl /\
    input cl = history_state s ++ [user_turn message] /\
    output cl = Raise err /\
    run (agent cl) (input cl) = Raise err.
Proof.
  intros Htyped Hraise. revert Hraise.
  turn_cases run message s; intros Hraise; try discriminate Hraise;
    injection Hraise as <-.
  - eexists. repeat split. exact Hc.
  - apply Htyped in Hc. now destruct o.
  - eexists. repeat split. exact Ha.
  - apply Htyped in Ha. apply agent_map_responder in Hm.
    destruct o; try discriminate Hr. now destruct a.
  - apply Htyped in Ha. now destruct o.
Qed.

Lemma attribute_reads_are_safe_witness :
  exists cl : Call,
    list.last
      (calls (turn (Scenario.classifier_only Scenario.books_classification)
                "I want a good book" initial_session).1) = Some cl /\
    input cl = [user_turn "I want a good book"] /\
    output cl = Raise (AgentsException "unavailable") /\
    agent cl = book_agent.
Proof.
  destruct (attribute_reads_are_safe
              (Scenario.classifier_only Scenario.books_classification)
              "I want a good book" initial_session
              (AgentsException "unavailable")) as (cl & Hlast & Hin & Hout & _).
  - intros agt l out. destruct agt; cbn; intros H; inversion H; reflexivity.
  - reflexivity.
  - exists cl. repeat split; try assumption.
    cbn in Hlast. now injection Hlast as <-.
Defined.

(** X2: every runner call of a turn is given the same input, the prior
    history followed by the user's new message (and nothing of the reply
    being built), and the log holds what the runner answered on it. *)
Theorem runner_calls_see_history_and_message (run : Runner) (message : string)
        (s : Session) :
  Forall
    (fun cl : Call =>
       input cl = history_state s ++ [user_turn message] /\
       output cl = run (agent cl) (input cl))
    (calls (turn run message s).1).
Proof.
  turn_cases run message s; repeat constructor; cbn; congruence.
Qed.

(** X3: a turn that starts with an approval pending runs no agent.  Any
    other turn runs the classifier first and then at most one more agent,
    and only the one that [agent_map] holds for the category the classifier
    returned; when the classifier returns a category that [agent_map]
    holds, that agent is run. *)
Theorem dispatch_follows_classification (run : Runner) (message : string)
        (s : Session) :
  let hist := history_state s ++ [user_turn message] in
  let ran := map agent (calls (turn run message s).1) in
  (pending_approval (workflow_state s) = true -> ran = []) /\
  (pending_approval (workflow_state s) = false ->
   ran = [classification_agent] \/
   exists cls agt,
     run classification_agent hist = Ok (Classification cls) /\
     agent_map !! ClassificationResponse.category cls = Some agt /\
     ran = [classification_agent; agt]) /\
  (forall cls agt,
     pending_approval (workflow_state s) = false ->
     run classification_agent hist = Ok (Classification cls) ->
     agent_map !! ClassificationResponse.category cls = Some agt ->
     ran = [classification_agent; agt]).
Proof.
  intros hist ran. subst hist ran.
  turn_cases run message s; repeat apply conj; intros; try congruence;
    try (left; reflexivity);
    try (right; eexists _, _; repeat split; eauto;
         rewrite ?Hcat; eauto using agent_map_order);
    repeat match goal with
      | H1 : ?f classification_agent ?l = Ok (Classification ?c1),
        H2 : ?f classification_agent ?l = Ok (Classification ?c2) |- _ =>
          rewrite H1 in H2; injection H2 as <-
      end;
    try rewrite Hcat in *; try rewrite agent_map_order in *; try congruence.
  rewrite Hc in H0. injection H0 as ->. discriminate Hty.
Qed.

(** ** What a turn writes *)

(** X4: the only key of the state dict that a turn writes is
    "pending_approval"; the value under any other key is the same after the
    turn as before, whether the turn returned or raised. *)
Theorem other_state_keys_untouched (run : Runner) (message key : string)
        (s : Session) :
  key <> "pending_approval" ->
  workflow_state (submit run message s) !! key = workflow_state s !! key.
Proof.
  intros Hkey. rewrite submit_state.
  turn_cases run message s; try reflexivity;
    now rewrite lookup_insert_ne by congruence.
Qed.

Lemma other_state_keys_untouched_witness :
  workflow_state
    (submit (Scenario.stub Scenario.order_classification)
       "I want to order book #2" session_with_language) !! "language" =
  Some true.
Proof.
  rewrite (other_state_keys_untouched
             (Scenario.stub Scenario.order_classification)
             "I want to order book #2" "language" session_with_language).
  - reflexivity.
  - discriminate.
Defined.

(** X5: the two labels after a turn.  When the turn returns they show
    "Order" and 1.0 if an approval was pending, and otherwise the category
    and confidence of the classification the classifier returned in that
    turn, on every path (fallback, plain response, order summary); when the
    turn raises they keep what they showed before. *)
Theorem labels_after_turn (run : Runner) (message : string) (s : Session) :
  let s' := submit run message s in
  if completed {| sub_run := run; sub_message := message |} s then
    (pending_approval (workflow_state s) = true /\
     category_label s' = Some "Order" /\
     confidence_label s' = Some (PyFloat 1)) \/
    (pending_approval (workflow_state s) = false /\
     exists cls,
       run classification_agent (history_state s ++ [user_turn message]) =
         Ok (Classification cls) /\
       category_label s' = Some (ClassificationResponse.category cls) /\
       confidence_label s' =
         Some (PyFloat (ClassificationResponse.confidence cls)))
  else
    category_label s' = category_label s /\
    confidence_label s' = confidence_label s.
Proof.
  intros s'. subst s'. unfold completed, submit. cbn [sub_run sub_message].
  turn_cases run message s; auto; right; eauto.
Qed.

(** When no approval is pending, the first runner call of a turn is the
    classifier's, on the prior history followed by the message. *)
Lemma idle_calls_head (run : Runner) (message : string) (s : Session) :
  pending_approval (workflow_state s) = false ->
  exists rest,
    calls (turn run message s).1 =
      logged classification_agent (history_state s ++ [user_turn message])
        (run classification_agent (history_state s ++ [user_turn message]))
      :: rest.
Proof.
  intros Hidle.
  turn_cases run message s; try congruence; rewrite Hc; eexists; reflexivity.
Qed.

(** A turn that raises started with no approval pending and leaves the
    state as it was and the history longer by the user's message. *)
Lemma failed_turn_session (run : Runner) (message : string) (s : Session) :
  completed {| sub_run := run; sub_message := message |} s = false ->
  pending_approval (workflow_state s) = false /\
  workflow_state (submit run message s) = workflow_state s /\
  history_state (submit run message s) =
    history_state s ++ [user_turn message].
Proof.
  rewrite submit_state, submit_history. unfold completed.
  cbn [sub_run sub_message].
  turn_cases run message s; intros Hfail; try discriminate Hfail; auto.
Qed.

(** ** How the events compose *)

(** X6: after a click on the clear button the next message is always sent
    to the classifier, also when an approval was pending before the click:
    the click discards the pending approval, and a "yes" that follows it is
    classified, not taken as the reply. *)
Theorem clear_discards_pending_approval (run : Runner) (message : string)
        (s : Session) :
  exists rest,
    map agent (calls (turn run message (clear s)).1) =
      classification_agent :: rest.
Proof.
  destruct (idle_calls_head run message (clear s) eq_refl) as [rest Hrest].
  rewrite Hrest. now eexists.
Qed.

(** X7: a turn that raised leaves its user message in the history: the
    next turn is again an ordinary turn, and the classifier is then given
    the prior history followed by both user messages, the aborted one and
    the new one (a resubmitted message appears twice). *)
Theorem failed_message_is_sent_again (run1 run2 : Runner)
        (message1 message2 : string) (s : Session) :
  completed {| sub_run := run1; sub_message := message1 |} s = false ->
  let s1 := submit run1 message1 s in
  let hist := history_state s ++ [user_turn message1; user_turn message2] in
  exists rest,
    calls (turn run2 message2 s1).1 =
      logged classification_agent hist (run2 classification_agent hist)
      :: rest.
Proof.
  intros Hfail s1 hist. subst s1 hist.
  destruct (failed_turn_session run1 message1 s Hfail) as (Hidle & Hst & Hh).
  destruct (idle_calls_head run2 message2 (submit run1 message1 s))
    as [rest Hrest]; [now rewrite Hst|].
  rewrite Hh, <- app_assoc in Hrest. now exists rest.
Qed.

Lemma failed_message_is_sent_again_witness :
  history_state
    (submit (Scenario.stub Scenario.books_classification) "I want a good book"
       (submit Scenario.down "I want a good book" initial_session)) =
  [user_turn "I want a good book"; user_turn "I want a good book";
   assistant_turn "Try Atomic Habits!"] /\
  exists rest,
    calls (turn (Scenario.stub Scenario.books_classification)
             "I want a good book"
             (submit Scenario.down "I want a good book" initial_session)).1 =
      logged classification_agent
        [user_turn "I want a good book"; user_turn "I want a good book"]
        (Ok Scenario.books_classification)
      :: rest.
Proof.
  split; [reflexivity|].
  apply (failed_message_is_sent_again Scenario.down
           (Scenario.stub Scenario.books_classification)
           "I want a good book" "I want a good book" initial_session).
  reflexivity.
Defined.

(** ** Histories over many turns *)

Lemma submit_history_length (run : Runner) (message : string) (s : Session) :
  length (history_state (submit run message s)) =
  length (history_state s) + 1 +
  (if completed {| sub_run := run; sub_message := message |} s then 1 else 0).
Proof.
  rewrite submit_history. unfold completed. cbn [sub_run sub_message].
  pose proof (turn_history run message s) as Hh.
  destruct (turn run message s) as [h [res|err]]; cbn in *.
  - destruct Hh as [reply ->]. rewrite length_app. cbn. lia.
  - rewrite Hh, length_app. cbn. lia.
Qed.

(** X8: over any sequence of turns, from any session, the history grows by
    one entry for every turn submitted (the user's message) and by one more
    for every turn that returned (the assistant's reply): a raised turn
    leaves a user message without a reply. *)
Theorem history_length_accounting (subs : list Submission) (s : Session) :
  length (history_state (submit_all subs s)) =
  length (history_state s) + length subs + count_completed subs s.
Proof.
  revert s. induction subs as [|sub rest IH]; intros s.
  - cbn. lia.
  - change (submit_all (sub :: rest) s)
      with (submit_all rest (submit (sub_run sub) (sub_message sub) s)).
    rewrite IH, submit_history_length. destruct sub as [run message].
    cbn [count_completed length sub_run sub_message]. lia.
Qed.

Lemma dialogue_ok_app (after_user : bool) (l k : list Turn) :
  dialogue_ok after_user (l ++ k) =
  dialogue_ok after_user l && dialogue_ok (ends_with_user after_user l) k.
Proof.
  revert after_user. induction l as [|t l IH]; intros after_user.
  - reflexivity.
  - cbn [app dialogue_ok ends_with_user]. destruct (is_user t).
    + apply IH.
    + rewrite IH. now rewrite !andb_assoc.
Qed.

Lemma dialogue_ok_submit (run : Runner) (message : string) (s : Session) :
  dialogue_ok false (history_state s) = true ->
  dialogue_ok false (history_state (submit run message s)) = true.
Proof.
  intros Hok. rewrite submit_history.
  pose proof (turn_history run message s) as Hh.
  destruct ((turn run message s).2) as [res|err].
  - destruct Hh as [reply ->]. now rewrite dialogue_ok_app, Hok.
  - rewrite Hh. now rewrite dialogue_ok_app, Hok.
Qed.

(** X9: after any sequence of submitted messages and clicks on the clear
    button, from the initial session, every entry of the history has role
    "user" or "assistant" and every assistant entry directly follows a user
    entry: the history never starts with a reply and never holds two
    replies in a row. *)
Theorem history_is_a_dialogue (evs : list Event) :
  dialogue_ok false (history_state (run_events evs initial_session)) = true.
Proof.
  induction evs as [|ev evs IH] using rev_ind; [reflexivity|].
  rewrite run_events_snoc. destruct ev as [sub|]; cbn [step].
  - now apply dialogue_ok_submit.
  - exact IH.
Qed.

(** X10: after any sequence of submitted messages and clicks on the clear
    button, from the initial session, the chat display is a prefix of the
    history the router keeps: it never shows a turn that the history does
    not hold at the same place.  Right after a turn that returned, the
    display is the whole history. *)
Theorem chat_shows_a_prefix_of_history :
  (forall evs : list Event,
     let s := run_events evs initial_session in
     exists rest, history_state s = chatbot s ++ rest) /\
  (forall (run : Runner) (message : string) (s : Session),
     completed {| sub_run := run; sub_message := message |} s = true ->
     chatbot (submit run message s) = history_state (submit run message s)).
Proof.
  split.
  - intros evs. cbn zeta.
    induction evs as [|ev evs IH] using rev_ind; [now exists []|].
    rewrite run_events_snoc. destruct IH as [rest Hrest].
    destruct ev as [[run message]|]; cbn [step sub_run sub_message].
    + unfold submit.
      pose proof (turn_history run message (run_events evs initial_session))
        as Hh.
      destruct (turn run message (run_events evs initial_session))
        as [h [[cat conf]|err]]; cbn in *.
      * exists []. now rewrite app_nil_r.
      * rewrite Hh, Hrest, <- app_assoc. eauto.
    + cbn. eauto.
  - intros run message s. unfold completed, submit.
    cbn [sub_run sub_message].
    now destruct (turn run message s) as [h [[cat conf]|err]].
Qed.

(** ** Fields that are never read *)

(** X11: the session after a turn depends on the runner's answers only
    through the fields [process_workflow] reads (category and confidence;
    response; for an order also human_approval, order_item_name and
    order_amount).  Two runners whose answers on the turn's input differ
    only in the reasons, the retention offer and discount, or the item and
    order identifiers lead to the same history, state, display and
    labels. *)
Theorem unread_fields_do_not_matter (run1 run2 : Runner) (message : string)
        (s : Session) :
  (forall agt,
     read_result (run1 agt (history_state s ++ [user_turn message])) =
     read_result (run2 agt (history_state s ++ [user_turn message]))) ->
  submit run1 message s = submit run2 message s.
Proof.
  intros Hread. unfold submit, turn.
  destruct (pending_approval (workflow_state s)) eqn:Hp.
  - now rewrite !approval_branch by exact Hp.
  - run_monad. unfold pending_approval in Hp. rewrite Hp. cbn.
    fold (user_turn message).
    pose proof (Hread classification_agent) as Hcls.
    destruct (run1 classification_agent _) as [o1|e1],
             (run2 classification_agent _) as [o2|e2];
      cbn in Hcls; try discriminate Hcls.
    2: { now injection Hcls as <-. }
    destruct o1 as [c1| | | |], o2 as [c2| | | |];
      cbn in Hcls; try discriminate Hcls; try reflexivity.
    injection Hcls as Hcat Hconf. run_monad. rewrite Hcat.
    destruct (agent_map !! ClassificationResponse.category c2) as [agt|];
      [|cbn; now rewrite Hconf].
    cbn. pose proof (Hread agt) as Hagt.
    destruct (run1 agt _) as [o1|e1], (run2 agt _) as [o2|e2];
      cbn in Hagt; try discriminate Hagt.
    2: { now injection Hagt as <-. }
    destruct (String.eqb (ClassificationResponse.category c2) "order");
      destruct o1, o2; cbn in Hagt; try discriminate Hagt;
      try reflexivity; injection Hagt as Hfields; cbn;
      repeat match goal with
        | H : _ = _ |- _ => rewrite H; clear H
        end;
      try reflexivity.
    all: destruct (OrderResponse.human_approval _); reflexivity.
Qed.

Lemma unread_fields_do_not_matter_witness :
  submit (Scenario.stub Scenario.books_classification) "I want a good book"
    initial_session =
  submit
    (Scenario.stub
       (Classification
          {| ClassificationResponse.reason := "mentions reading";
             ClassificationResponse.category := "books";
             ClassificationResponse.confidence := 0x1.d70a3d70a3d71p-1 |}))
    "I want a good book" initial_session.
Proof.
  apply (unread_fields_do_not_matter
           (Scenario.stub Scenario.books_classification)
           (Scenario.stub
              (Classification
                 {| ClassificationResponse.reason := "mentions reading";
                    ClassificationResponse.category := "books";
                    ClassificationResponse.confidence :=
                      0x1.d70a3d70a3d71p-1 |}))
           "I want a good book" initial_session).
  intros agt. destruct agt; reflexivity.
Defined.

(** ** The amount in the order summary *)

(** X12: the amount shown in the order summary is the float's value
    rounded to the nearest hundredth.  For an amount of magnitude
    [m * 2^e], the summary shows the sign and [h] hundredths, where [h] is
    exactly [100 * m * 2^e] when [e] is not negative and otherwise differs
    from [100 * m / 2^p] ([e = -p]) by at most one half. *)
Theorem order_summary_amount_is_nearest (name : string) (x : float)
        (sgn : bool) (m : positive) (e : Z) :
  Prim2SF x = S754_finite sgn m e ->
  exists h : N,
    order_summary name x =
      ("Order summary: " ++ name ++ " ($" ++ (Fmt.sign sgn ++ Fmt.fixed2 h) ++
       "). Approve this order? (yes/no)")%string /\
    match e with
    | Zneg p =>
        (2 * h * 2 ^ Npos p <= 200 * Npos m + 2 ^ Npos p /\
         200 * Npos m <= 2 * h * 2 ^ Npos p + 2 ^ Npos p)%N
    | _ => h = (Npos m * 100 * 2 ^ Z.to_N e)%N
    end.
Proof.
  intros Hx. exists (Fmt.hundredths m e). split.
  - unfold order_summary, Fmt.format_2f. now rewrite Hx.
  - destruct e as [|p|p].
    + apply FmtFacts.hundredths_exact. lia.
    + apply FmtFacts.hundredths_exact. lia.
    + apply FmtFacts.hundredths_nearest.
Qed.

Lemma order_summary_amount_is_nearest_witness :
  exists h : N,
    order_summary "Atomic Habits" 0x1.3fd70a3d70a3dp+4 =
      ("Order summary: Atomic Habits ($" ++ (Fmt.sign false ++ Fmt.fixed2 h) ++
       "). Approve this order? (yes/no)")%string /\
    (2 * h * 2 ^ 48 <= 200 * 5626684784446013 + 2 ^ 48 /\
     200 * 5626684784446013 <= 2 * h * 2 ^ 48 + 2 ^ 48)%N.
Proof.
  apply (order_summary_amount_is_nearest "Atomic Habits" 0x1.3fd70a3d70a3dp+4
           false 5626684784446013%positive (-48)%Z).
  reflexivity.
Defined.
